(** * fundacitev1: request tracking backend (app.py)

    A shallow embedding of the Flask handlers of [app.py]: the request
    table, the session, the role-gated update, creation, listing,
    deletion and the PDF report layout.  The relational store and the
    paragraph typesetter are external collaborators; what the handlers
    rely on from them is collected in the interfaces [Store] and
    [Typesetter]. *)

From Stdlib Require Import ZArith List Ascii String Bool Lia.
From Stdlib Require Import Sorting.Permutation Sorting.Sorted.
Import ListNotations.

Set Warnings "-register-all".

Local Open Scope string_scope.
Local Open Scope Z_scope.
Local Open Scope list_scope.

(** ** Python values

    The objects that flow through the handlers: what [request.get_json()]
    yields (JSON numbers restricted to integers), plus the [datetime] of
    [fecha_creacion]. *)

Inductive pyval : Type :=
| PNone
| PBool (b : bool)
| PInt (n : Z)
| PStr (s : string)
| PDate (t : Z)
| PList (l : list pyval)
| PDict (d : list (string * pyval)).

(** Exceptions raised by the operations the handlers perform. *)
Inductive exn : Type :=
| KeyError (k : string)
| TypeError
| AttributeError
| ArgumentError
| StorageError
| OverflowError
| ValueError.

(** The error monad of a [try] block. *)
Inductive result (A : Type) : Type :=
| Ok (a : A)
| Raise (e : exn).
Arguments Ok {A} a.
Arguments Raise {A} e.

Definition bind {A B : Type} (m : result A) (k : A -> result B) : result B :=
  match m with
  | Ok a => k a
  | Raise e => Raise e
  end.

Notation "x <- m ;; k" := (bind m (fun x => k))
  (at level 61, m at next level, right associativity).

(** Truth value of an object, as [if v:] and [not v] test it. *)
Definition truthy (v : pyval) : bool :=
  match v with
  | PNone => false
  | PBool b => b
  | PInt n => negb (n =? 0)
  | PStr s => negb (s =? "")%string
  | PDate _ => true
  | PList l => match l with [] => false | _ => true end
  | PDict d => match d with [] => false | _ => true end
  end.

(** [v == s] for a [str] [s]. *)
Definition eq_str (v : pyval) (s : string) : bool :=
  match v with
  | PStr t => (t =? s)%string
  | _ => false
  end.

Fixpoint dict_lookup (k : string) (d : list (string * pyval)) : option pyval :=
  match d with
  | [] => None
  | (k', v) :: d' => if (k' =? k)%string then Some v else dict_lookup k d'
  end.

Definition is_substring (k s : string) : bool :=
  match String.index 0 k s with
  | Some _ => true
  | None => false
  end.

(** [k in data]: key membership on a dict, element membership on a list,
    substring test on a str, [TypeError] on anything else. *)
Definition contains (k : string) (data : pyval) : result bool :=
  match data with
  | PDict d => Ok (match dict_lookup k d with Some _ => true | None => false end)
  | PList l => Ok (existsb (fun v => eq_str v k) l)
  | PStr s => Ok (is_substring k s)
  | _ => Raise TypeError
  end.

(** [data[k]] for a str key [k]. *)
Definition getitem (data : pyval) (k : string) : result pyval :=
  match data with
  | PDict d => match dict_lookup k d with
               | Some v => Ok v
               | None => Raise (KeyError k)
               end
  | _ => Raise TypeError
  end.

(** [data.get(k, default)]. *)
Definition get_default (data : pyval) (k : string) (default : pyval)
  : result pyval :=
  match data with
  | PDict d => match dict_lookup k d with
               | Some v => Ok v
               | None => Ok default
               end
  | _ => Raise AttributeError
  end.

(** ** The data model *)

(** [class Solicitud(db.Model)].  [dependencia] is only ever written from the
    session and [fecha_creacion] from the clock; the other columns receive
    payload values unchanged, the store deciding at commit what it accepts. *)
Record Solicitud : Type := mkSolicitud {
  id : Z;
  cedula : pyval;
  nombre : pyval;
  dependencia : string;
  tipo : pyval;
  descripcion : pyval;
  departamento_destino : pyval;
  fecha_creacion : Z;
  status : pyval;
  quien_atendio : pyval;
  que_hizo : pyval
}.

Definition set_descripcion (v : pyval) (s : Solicitud) : Solicitud :=
  mkSolicitud (id s) (cedula s) (nombre s) (dependencia s) (tipo s) v
    (departamento_destino s) (fecha_creacion s) (status s) (quien_atendio s)
    (que_hizo s).

Definition set_departamento_destino (v : pyval) (s : Solicitud) : Solicitud :=
  mkSolicitud (id s) (cedula s) (nombre s) (dependencia s) (tipo s)
    (descripcion s) v (fecha_creacion s) (status s) (quien_atendio s)
    (que_hizo s).

Definition set_status (v : pyval) (s : Solicitud) : Solicitud :=
  mkSolicitud (id s) (cedula s) (nombre s) (dependencia s) (tipo s)
    (descripcion s) (departamento_destino s) (fecha_creacion s) v
    (quien_atendio s) (que_hizo s).

Definition set_quien_atendio (v : pyval) (s : Solicitud) : Solicitud :=
  mkSolicitud (id s) (cedula s) (nombre s) (dependencia s) (tipo s)
    (descripcion s) (departamento_destino s) (fecha_creacion s) (status s) v
    (que_hizo s).

Definition set_que_hizo (v : pyval) (s : Solicitud) : Solicitud :=
  mkSolicitud (id s) (cedula s) (nombre s) (dependencia s) (tipo s)
    (descripcion s) (departamento_destino s) (fecha_creacion s) (status s)
    (quien_atendio s) v.

(** [Solicitud.to_dict]: the status column is exposed under the key
    [estado]. *)
Definition to_dict (s : Solicitud) : list (string * pyval) :=
  [ ("id", PInt (id s));
    ("cedula", cedula s);
    ("nombre", nombre s);
    ("dependencia", PStr (dependencia s));
    ("tipo", tipo s);
    ("descripcion", descripcion s);
    ("departamento_destino", departamento_destino s);
    ("fecha_creacion", PDate (fecha_creacion s));
    ("estado", status s);
    ("quien_atendio", quien_atendio s);
    ("que_hizo", que_hizo s) ].

(** The request table: its rows in insertion order. *)
Definition table : Type := list Solicitud.

(** The signed session cookie: empty, or what [login] stored in it. *)
Record Login : Type := mkLogin {
  user_id : Z;
  departamento : string;
  username : string
}.

Definition Session : Type := option Login.

(** [session.get('departamento')]. *)
Definition session_departamento (s : Session) : option string :=
  match s with
  | Some l => Some (departamento l)
  | None => None
  end.

(** [not departamento_del_usuario]: the key is absent or holds the empty
    string. *)
Definition resolve (s : Session) : option string :=
  match session_departamento s with
  | Some d => if (d =? "")%string then None else Some d
  | None => None
  end.

(** What a handler sees of the HTTP request. *)
Record Request : Type := mkRequest {
  session : Session;
  get_json : pyval
}.

(** ** Responses *)

(** An f-string: literal pieces and formatted values. *)
Inductive frag : Type :=
| Lit (s : string)
| Fmt (v : pyval)
| Strftime (t : Z).

(** The canvas operations [export_pdf] issues. *)
Inductive draw : Type :=
| SetFont (name : string) (size : Z)
| DrawString (x y : Z) (text : list frag)
| DrawParagraph (x y : Z) (text : pyval) (avail_width : Z)
| DrawLine (x1 y1 x2 y2 : Z).

Definition page : Type := list draw.

Inductive body : Type :=
| Message (message : string)
| MessageError (message : string) (error : exn)
| Listing (rows : list (list (string * pyval)))
| ErrorPage
| Unhandled (e : exn)
| Attachment (download_name mimetype : string) (doc : list page).

Definition Response : Type := (body * Z)%type.

Definition code (r : Response) : Z := snd r.

(** ** The relational store

    What the handlers ask of SQLAlchemy and the database behind it.
    [order_by_fecha_desc] is [ORDER BY fecha_creacion DESC]: it returns the
    same rows, newest first, and the query names no further sort key.
    [id_in ids] is [Solicitud.id.in_(ids)], which may raise.  [commit old new]
    tells whether [db.session.commit()] succeeds in taking the table from
    [old] to [new] (the constraints of the schema, the types the driver
    binds); [next_id] is the primary key given to an inserted row. *)

Definition newer_first (a b : Solicitud) : Prop :=
  fecha_creacion b <= fecha_creacion a.

Class Store : Type := {
  order_by_fecha_desc : table -> table;
  order_by_permutation :
    forall rows, Permutation rows (order_by_fecha_desc rows);
  order_by_sorted :
    forall rows, StronglySorted newer_first (order_by_fecha_desc rows);
  id_in : pyval -> result (Z -> bool);
  commit : table -> table -> bool;
  next_id : table -> Z
}.

(** [Solicitud.query.get(id)], by primary key. *)
Definition get (i : Z) (t : table) : option Solicitud :=
  find (fun s => id s =? i) t.

(** The row of [s] after its attributes were assigned and flushed. *)
Definition replace (s' : Solicitud) (t : table) : table :=
  map (fun s => if id s =? id s' then s' else s) t.

(** [db.session.delete(solicitud)]. *)
Definition remove (i : Z) (t : table) : table :=
  filter (fun s => negb (id s =? i)) t.

(** ** Handlers *)

Definition unauthorized : Response := (Message "No autorizado", 401).

(** [if k in data: solicitud.<column> = data[k]] *)
Definition assign_if_present (k : string)
    (set : pyval -> Solicitud -> Solicitud) (data : pyval) (s : Solicitud)
  : result Solicitud :=
  present <- contains k data ;;
  if (present : bool) then v <- getitem data k ;; Ok (set v s) else Ok s.

(** The role dispatch inside the [try] of [update_solicitud]: [Ok None] is
    the [else] branch, which returns 403 before the commit. *)
Definition apply_update (departamento_del_usuario : string) (data : pyval)
    (solicitud : Solicitud) : result (option Solicitud) :=
  if (departamento_del_usuario =? dependencia solicitud)%string then
    s1 <- assign_if_present "descripcion" set_descripcion data solicitud ;;
    s2 <- assign_if_present "departamento_destino" set_departamento_destino
            data s1 ;;
    Ok (Some s2)
  else if eq_str (departamento_destino solicitud) departamento_del_usuario then
    s1 <- assign_if_present "estado" set_status data solicitud ;;
    s2 <- assign_if_present "quien_atendio" set_quien_atendio data s1 ;;
    s3 <- assign_if_present "que_hizo" set_que_hizo data s2 ;;
    Ok (Some s3)
  else Ok None.

(** [PUT /api/solicitudes/<id>] *)
Definition update_solicitud `{Store} (t : table) (req : Request) (i : Z)
  : Response * table :=
  let data := get_json req in
  match get i t with
  | None => ((ErrorPage, 404), t)
  | Some solicitud =>
      match resolve (session req) with
      | None => (unauthorized, t)
      | Some departamento_del_usuario =>
          match apply_update departamento_del_usuario data solicitud with
          | Ok None =>
              ((Message "No tienes permiso para modificar esta tarea.", 403), t)
          | Ok (Some s') =>
              if commit t (replace s' t)
              then ((Message "Tarea actualizada con éxito", 200), replace s' t)
              else ((MessageError "Error al actualizar la tarea" StorageError,
                     400), t)
          | Raise e => ((MessageError "Error al actualizar la tarea" e, 400), t)
          end
      end
  end.

(** The constructor call of [create_solicitud]; keyword arguments are
    evaluated left to right. *)
Definition new_solicitud (departamento_del_usuario : string) (data : pyval)
    (i utcnow : Z) : result Solicitud :=
  c <- getitem data "cedula" ;;
  n <- getitem data "nombre" ;;
  tp <- getitem data "tipo" ;;
  d <- getitem data "descripcion" ;;
  dd <- getitem data "departamento_destino" ;;
  Ok (mkSolicitud i c n departamento_del_usuario tp d dd utcnow
        (PStr "Recibida") PNone PNone).

(** [POST /api/solicitudes] *)
Definition create_solicitud `{Store} (t : table) (req : Request) (utcnow : Z)
  : Response * table :=
  let data := get_json req in
  match resolve (session req) with
  | None => (unauthorized, t)
  | Some departamento_del_usuario =>
      match new_solicitud departamento_del_usuario data (next_id t) utcnow with
      | Ok s =>
          if commit t (t ++ [s])
          then ((Message "Tarea creada con éxito", 201), t ++ [s])
          else ((MessageError "Error al crear la tarea" StorageError, 400), t)
      | Raise e => ((MessageError "Error al crear la tarea" e, 400), t)
      end
  end.

(** The [filter] of [get_solicitudes]. *)
Definition visible (departamento_del_usuario : string) (s : Solicitud) : bool :=
  eq_str (departamento_destino s) departamento_del_usuario
  || (dependencia s =? departamento_del_usuario)%string.

Definition solicitudes_of `{Store} (departamento_del_usuario : string)
    (t : table) : table :=
  order_by_fecha_desc (filter (visible departamento_del_usuario) t).

(** [GET /api/solicitudes] *)
Definition get_solicitudes `{Store} (t : table) (req : Request)
  : Response * table :=
  match resolve (session req) with
  | None => (unauthorized, t)
  | Some departamento_del_usuario =>
      ((Listing (map to_dict (solicitudes_of departamento_del_usuario t)), 200),
       t)
  end.

(** [DELETE /api/solicitudes/<id>] *)
Definition delete_solicitud `{Store} (t : table) (req : Request) (i : Z)
  : Response * table :=
  match get i t with
  | None => ((ErrorPage, 404), t)
  | Some solicitud =>
      if commit t (remove (id solicitud) t)
      then ((Message "Tarea eliminada con éxito", 200), remove (id solicitud) t)
      else ((MessageError "Error al eliminar la tarea" StorageError, 400), t)
  end.

(** ** The report

    [wrapOn text w h] is the height [Paragraph(text, long_text_style)
    .wrapOn(c, w, h)[1]] that reportlab measures for a text block. *)

Class Typesetter : Type := {
  wrapOn : pyval -> Z -> Z -> Z
}.

(** The canvas: the pages already shown and the page being drawn. *)
Record Canvas : Type := mkCanvas {
  shown : list page;
  current : page
}.

(** The canvas together with the cursor [y_position]. *)
Record layout : Type := mkLayout {
  canvas : Canvas;
  y_position : Z
}.

Definition width : Z := 612.
Definition height : Z := 792.
Definition margin : Z := 50.

Definition emit (d : draw) (st : layout) : layout :=
  mkLayout (mkCanvas (shown (canvas st)) (current (canvas st) ++ [d]))
    (y_position st).

Definition setFont (name : string) (size : Z) (st : layout) : layout :=
  emit (SetFont name size) st.

(** [c.drawString(x, y_position, text)] *)
Definition drawString (x : Z) (text : list frag) (st : layout) : layout :=
  emit (DrawString x (y_position st) text) st.

(** [y_position -= n] *)
Definition down (n : Z) (st : layout) : layout :=
  mkLayout (canvas st) (y_position st - n).

(** [c.showPage()] followed by [y_position = height - 50]. *)
Definition showPage (st : layout) : layout :=
  mkLayout (mkCanvas (shown (canvas st) ++ [current (canvas st)]) [])
    (height - 50).

(** [c.save()]: the page being drawn is closed when it has content. *)
Definition save (c : Canvas) : list page :=
  match current c with
  | [] => shown c
  | _ => shown c ++ [current c]
  end.

Definition continuation : list frag :=
  [Lit "Reporte de Solicitudes (Continuación)"].

(** The page-break test at the head of the loop body. *)
Definition new_page_if_low (st : layout) : layout :=
  if y_position st <? 100 then
    down 30
      (drawString margin continuation
         (setFont "Helvetica-Bold" 18 (showPage st)))
  else st.

Definition or_na (v : pyval) : pyval := if truthy v then v else PStr "N/A".

Definition details (s : Solicitud) : list (list frag) :=
  [ [Lit "Cédula: "; Fmt (cedula s)];
    [Lit "Nombre: "; Fmt (nombre s)];
    [Lit "Dpto. Emisor: "; Fmt (PStr (dependencia s))];
    [Lit "Tipo: "; Fmt (tipo s)];
    [Lit "Dpto. Destino: "; Fmt (departamento_destino s)];
    [Lit "Fecha de Creación: "; Strftime (fecha_creacion s)];
    [Lit "Estado: "; Fmt (status s)];
    [Lit "Quien Atendió: "; Fmt (or_na (quien_atendio s))] ].

Definition header (s : Solicitud) : list frag :=
  [Lit "Solicitud ID: "; Fmt (PInt (id s))].

(** A measured text block: drawn below the cursor, which then moves down by
    the measured height plus [pad]. *)
Definition paragraph `{Typesetter} (text : pyval) (pad : Z) (st : layout)
  : layout :=
  let avail := width - 2 * margin - 20 in
  let h := wrapOn text avail height in
  down (h + pad)
    (emit (DrawParagraph (margin + 10) (y_position st - h) text avail) st).

(** Everything the loop body draws after the page-break test. *)
Definition draw_solicitud `{Typesetter} (solicitud : Solicitud) (st : layout)
  : layout :=
  let st := setFont "Helvetica-Bold" 12 st in
  let st := drawString margin (header solicitud) st in
  let st := down 15 st in
  let st := fold_left (fun st detail => down 15 (drawString (margin + 10) detail st))
              (details solicitud) st in
  let st := down 5 st in
  let st := setFont "Helvetica-Bold" 10 st in
  let st := drawString (margin + 10) [Lit "Descripción:"] st in
  let st := down 15 st in
  let st := paragraph (descripcion solicitud) 10 st in
  let st :=
    if truthy (que_hizo solicitud) then
      let st := setFont "Helvetica-Bold" 10 st in
      let st := drawString (margin + 10) [Lit "Resolución:"] st in
      let st := down 15 st in
      paragraph (que_hizo solicitud) 20 st
    else
      let st := setFont "Helvetica-Bold" 10 st in
      let st := drawString (margin + 10) [Lit "Resolución: N/A"] st in
      down 20 st in
  let st := down 10 st in
  let st := emit (DrawLine margin (y_position st) (width - margin)
                    (y_position st)) st in
  down 20 st.

(** One iteration of [for solicitud in solicitudes]. *)
Definition render_solicitud `{Typesetter} (st : layout) (solicitud : Solicitud)
  : layout :=
  draw_solicitud solicitud (new_page_if_low st).

(** The cursor and canvas when the loop is entered: title and date drawn. *)
Definition report_head (now : Z) : layout :=
  let st := mkLayout (mkCanvas [] []) (height - 50) in
  let st := setFont "Helvetica-Bold" 18 st in
  let st := drawString margin [Lit "Reporte de Solicitudes FUNDACITE"] st in
  let st := down 30 st in
  let st := setFont "Helvetica" 10 st in
  let st := drawString margin [Lit "Fecha de generación: "; Strftime now] st in
  down 20 st.

Definition no_records : list frag :=
  [Lit "No hay solicitudes para mostrar en este reporte."].

Definition render_all `{Typesetter} (st : layout) (solicitudes : table)
  : layout :=
  fold_left render_solicitud solicitudes st.

(** The document [export_pdf] writes for the selected rows. *)
Definition report `{Typesetter} (now : Z) (solicitudes : table) : list page :=
  let st := report_head now in
  let st :=
    match solicitudes with
    | [] => drawString margin no_records st
    | _ => render_all st solicitudes
    end in
  save (canvas st).

(** The selection at the head of [export_pdf]: [Ok None] is the 400 answer
    when neither [export_all] nor [ids] is given. *)
Definition select `{Store} (t : table) (data : pyval) : result (option table) :=
  export_all <- get_default data "export_all" (PBool false) ;;
  ids_to_export <- get_default data "ids" (PList []) ;;
  if truthy export_all then Ok (Some t)
  else if truthy ids_to_export then
    p <- id_in ids_to_export ;;
    Ok (Some (filter (fun s => p (id s)) t))
  else Ok None.

(** [POST /api/export-pdf]; an exception here is not caught by the handler. *)
Definition export_pdf `{Store} `{Typesetter} (t : table) (req : Request)
    (now : Z) : Response * table :=
  let data := get_json req in
  match select t data with
  | Raise e => ((Unhandled e, 500), t)
  | Ok None =>
      ((Message "No se especificaron solicitudes para exportar.", 400), t)
  | Ok (Some solicitudes) =>
      ((Attachment "reporte_solicitudes.pdf" "application/pdf"
          (report now solicitudes), 200), t)
  end.

(** ** Sorting by insertion

    Rows are inserted into a list kept newest first.  [ties_first] says
    where a row lands among rows of the same [fecha_creacion]: ahead of them
    ([true], which keeps insertion order) or behind them ([false], which
    reverses it). *)

Definition goes_before (ties_first : bool) (a b : Solicitud) : bool :=
  if ties_first then fecha_creacion b <=? fecha_creacion a
  else fecha_creacion b <? fecha_creacion a.

Fixpoint insert_row (ties_first : bool) (a : Solicitud) (l : table) : table :=
  match l with
  | [] => [a]
  | b :: l' =>
      if goes_before ties_first a b then a :: b :: l'
      else b :: insert_row ties_first a l'
  end.

Definition sort_rows (ties_first : bool) (l : table) : table :=
  fold_right (insert_row ties_first) [] l.

(** [id.in_(ids)] on a list of integers; anything but a list is refused. *)
Definition in_int_list (ids : pyval) : result (Z -> bool) :=
  match ids with
  | PList l =>
      Ok (fun i => existsb (fun v => match v with
                                     | PInt n => n =? i
                                     | _ => false
                                     end) l)
  | _ => Raise ArgumentError
  end.

(** The [nullable=False] columns that take payload values. *)
Definition not_null (s : Solicitud) : bool :=
  match cedula s, nombre s, tipo s, descripcion s, departamento_destino s with
  | PNone, _, _, _, _ | _, PNone, _, _, _ | _, _, PNone, _, _
  | _, _, _, PNone, _ | _, _, _, _, PNone => false
  | _, _, _, _, _ => true
  end.

Definition max_id (t : table) : Z := fold_right (fun s m => Z.max (id s) m) 0 t.

(** Fourteen units of leading per line of eighty characters. *)
Definition line_count_typesetter : Typesetter :=
  {| wrapOn := fun text _ _ =>
       match text with
       | PStr s => 14 * (Z.of_nat (String.length s) / 80 + 1)
       | _ => 14
       end |}.

(** ** Sample data *)

Definition dtisc : Session := Some (mkLogin 1 "DTISC" "dtisc").
Definition diac : Session := Some (mkLogin 2 "DIAC" "diac").
Definition dga : Session := Some (mkLogin 3 "DGA" "dga").

Definition row1 : Solicitud :=
  mkSolicitud 1 (PStr "V-1") (PStr "Ana") "DTISC" (PStr "Soporte")
    (PStr "Sin red") (PStr "DIAC") 1000 (PStr "Recibida") PNone PNone.

Definition row2 : Solicitud :=
  mkSolicitud 2 (PStr "V-2") (PStr "Luis") "DGA" (PStr "Compra")
    (PStr "Toner") (PStr "DTISC") 1000 (PStr "Recibida") PNone PNone.

Definition row3 : Solicitud :=
  mkSolicitud 3 (PStr "V-3") (PStr "Eva") "DGA" (PStr "Pago")
    (PStr "Factura") (PStr "PRE") 2000 (PStr "En proceso") (PStr "Raul")
    (PStr "Revisado").

Definition sample : table := [row1; row2; row3].

(** DTISC, sender of request 1, sends a payload that also names the
    recipient's columns. *)
Definition sender_payload : Request :=
  mkRequest dtisc
    (PDict [ ("descripcion", PStr "Sin red ni telefono");
             ("estado", PStr "Cerrada");
             ("quien_atendio", PStr "dtisc");
             ("que_hizo", PStr "Nada") ]).

(** DIAC, recipient of request 1, sends a payload that also names the
    sender's columns. *)
Definition recipient_payload : Request :=
  mkRequest diac
    (PDict [ ("estado", PStr "Atendida");
             ("quien_atendio", PStr "Maria");
             ("descripcion", PStr "Otra cosa");
             ("departamento_destino", PStr "DGA") ]).

(** A complete payload that also carries a [status] and a [dependencia]. *)
Definition creation_payload : Request :=
  mkRequest dtisc
    (PDict [ ("cedula", PStr "V-4"); ("nombre", PStr "Juan");
             ("tipo", PStr "Soporte"); ("descripcion", PStr "Impresora");
             ("departamento_destino", PStr "DIAC");
             ("status", PStr "Received"); ("dependencia", PStr "DGA") ]).

Definition anonymous (data : pyval) : Request := mkRequest None data.

(** ** Vocabulary of the properties *)

(** The columns no update writes, those of the sender and those of the
    recipient: each group unchanged from [s] to [s']. *)
Definition same_identity (s s' : Solicitud) : Prop :=
  id s' = id s /\ cedula s' = cedula s /\ nombre s' = nombre s /\
  dependencia s' = dependencia s /\ tipo s' = tipo s /\
  fecha_creacion s' = fecha_creacion s.

Definition same_request (s s' : Solicitud) : Prop :=
  descripcion s' = descripcion s /\
  departamento_destino s' = departamento_destino s.

Definition same_answer (s s' : Solicitud) : Prop :=
  status s' = status s /\ quien_atendio s' = quien_atendio s /\
  que_hizo s' = que_hizo s.

(** The rows of [rows] dated [f], in the order they have there. *)
Definition dated (f : Z) (rows : table) : table :=
  filter (fun r => fecha_creacion r =? f) rows.

(** Ties keep insertion order: for every date, the listed rows of that date
    come in the order the table has them. *)
Definition ties_in_insertion_order `{Store} (dep : string) (t : table) : Prop :=
  forall f, dated f (solicitudes_of dep t) = dated f (filter (visible dep) t).

(** What has been sent to the canvas so far, page breaks included. *)
Inductive event : Type :=
| Draw (d : draw)
| Break.

Definition events (st : layout) : list event :=
  flat_map (fun p => map Draw p ++ [Break]) (shown (canvas st))
  ++ map Draw (current (canvas st)).

(** A step that only appends drawing operations to the current page. *)
Definition draws (ops : list draw) (st st' : layout) : Prop :=
  shown (canvas st') = shown (canvas st) /\
  current (canvas st') = current (canvas st) ++ ops.

(** [st'] was reached from [st] by drawing on the current page only. *)
Definition appends (st st' : layout) : Prop := exists ops, draws ops st st'.

(** ** Accounts and the session

    [class User(db.Model)], the three session routes and the seeding of the
    default accounts at start-up. *)

Module User.

Record t : Type := mk {
  id : Z;
  username : string;
  password_hash : string;
  departamento : string
}.

End User.

(** What the account routes ask of werkzeug and of the store.
    [generate_password_hash salt password] is the salted hash, the salt
    being the randomness the library draws; [check_password_hash] compares
    a stored hash with what the client sent and accepts the password a hash
    was generated from.  [first_by_other] is
    [filter_by(username=v).first()] for a [v] that is not a str, which like
    any query yields a stored row if it yields one, and [next_user_id] the
    primary key given to an inserted account. *)
Class Accounts : Type := {
  generate_password_hash : Z -> string -> string;
  check_password_hash : string -> pyval -> result bool;
  check_generated :
    forall salt password,
      check_password_hash (generate_password_hash salt password)
        (PStr password) = Ok true;
  first_by_other : list User.t -> pyval -> result (option User.t);
  first_by_other_stored :
    forall users v u, first_by_other users v = Ok (Some u) -> In u users;
  next_user_id : list User.t -> Z
}.

(** [User.query.filter_by(username=u).first()] for a str [u]. *)
Definition first_by_username (users : list User.t) (u : string)
  : option User.t :=
  find (fun x => (User.username x =? u)%string) users.

Definition filter_by_username `{Accounts} (users : list User.t) (v : pyval)
  : result (option User.t) :=
  match v with
  | PStr u => Ok (first_by_username users u)
  | _ => first_by_other users v
  end.

(** [User.check_password] *)
Definition check_password `{Accounts} (user : User.t) (password : pyval)
  : result bool :=
  check_password_hash (User.password_hash user) password.

(** [User.set_password] *)
Definition set_password `{Accounts} (salt : Z) (password : string)
    (user : User.t) : User.t :=
  User.mk (User.id user) (User.username user)
    (generate_password_hash salt password) (User.departamento user).

Inductive auth_body : Type :=
| LoginOk (message departamento username : string)
| AuthMessage (message : string)
| CurrentUser (departamento : string) (username : string)
| AuthUnhandled (e : exn)
| AuthErrorPage.

Definition AuthResponse : Type := (auth_body * Z)%type.

Definition auth_code (r : AuthResponse) : Z := snd r.

(** The user [login] accepts, if any: [user and user.check_password(...)]
    does not hash when no user was found. *)
Definition authenticate `{Accounts} (users : list User.t) (data : pyval)
  : result (option User.t) :=
  username <- get_default data "username" PNone ;;
  password <- get_default data "password" PNone ;;
  user <- filter_by_username users username ;;
  match user with
  | None => Ok None
  | Some u =>
      ok <- check_password u password ;;
      Ok (if (ok : bool) then Some u else None)
  end.

(** [POST /api/login]: the answer and the session after it. *)
Definition login `{Accounts} (users : list User.t) (s : Session) (data : pyval)
  : AuthResponse * Session :=
  match authenticate users data with
  | Raise e => ((AuthUnhandled e, 500), s)
  | Ok (Some user) =>
      ((LoginOk "Login exitoso" (User.departamento user) (User.username user),
        200),
       Some (mkLogin (User.id user) (User.departamento user)
               (User.username user)))
  | Ok None => ((AuthMessage "Usuario o contraseña inválidos", 401), s)
  end.

(** [POST /api/logout] *)
Definition logout (s : Session) : AuthResponse * Session :=
  ((AuthMessage "Sesión cerrada", 200), None).

(** [GET /api/current_user] *)
Definition get_current_user (s : Session) : AuthResponse * Session :=
  match resolve s, s with
  | Some departamento_del_usuario, Some l =>
      ((CurrentUser departamento_del_usuario (username l), 200), s)
  | _, _ => ((AuthMessage "No autorizado", 401), s)
  end.

Definition DEPARTAMENTOS : list string :=
  ["DTISC"; "DIAC"; "DGA"; "ECHALBA"; "PRE"; "DIE"; "DCCIP"].

(** [str.lower] on the letters A to Z. *)
Definition lower_ascii (c : ascii) : ascii :=
  let n := nat_of_ascii c in
  if ((65 <=? n) && (n <=? 90))%nat then ascii_of_nat (n + 32) else c.

Fixpoint lower (s : string) : string :=
  match s with
  | EmptyString => EmptyString
  | String c s' => String (lower_ascii c) (lower s')
  end.

(** One turn of the start-up loop.  The state is the accounts (pending ones
    included, the query flushing them) and the number of salts drawn from
    [urandom] so far. *)
Definition seed_one `{Accounts} (urandom : nat -> Z)
    (st : list User.t * nat) (dep : string) : list User.t * nat :=
  let (users, drawn) := st in
  let username_lower := lower dep in
  match first_by_username users username_lower with
  | Some _ => st
  | None =>
      let new_user := User.mk (next_user_id users) username_lower "" dep in
      (users ++ [set_password (urandom drawn) "fundacite" new_user], S drawn)
  end.

(** The accounts after the start-up loop and its commit. *)
Definition seed `{Accounts} (urandom : nat -> Z) (st : list User.t * nat)
  : list User.t * nat :=
  fold_left (seed_one urandom) DEPARTAMENTOS st.

(** A salted hash that keeps the password readable after a one-character
    salt, enough to meet the interface. *)
Definition toy_generate (salt : Z) (password : string) : string :=
  String (ascii_of_nat (Z.to_nat (salt mod 256))) password.

Definition toy_check (hash : string) (v : pyval) : result bool :=
  match v with
  | PStr p => Ok (match hash with
                  | String _ rest => (rest =? p)%string
                  | EmptyString => false
                  end)
  | _ => Raise AttributeError
  end.

Definition max_user_id (users : list User.t) : Z :=
  fold_right (fun u m => Z.max (User.id u) m) 0 users.

(** ** Further sample data *)

(** A sender who clears a [nullable=False] column: the store refuses. *)
Definition clearing_payload : Request :=
  mkRequest dtisc (PDict [("descripcion", PNone)]).

(** DIAC answers request 1 and names the column [status] as well. *)
Definition answer_payload : Request :=
  mkRequest diac
    (PDict [ ("status", PStr "Cerrada"); ("estado", PStr "Atendida");
             ("que_hizo", PStr "Cable cambiado") ]).


(** A payload without [nombre] and without [descripcion]. *)
Definition incomplete_payload : Request :=
  mkRequest dtisc
    (PDict [ ("cedula", PStr "V-5"); ("tipo", PStr "Soporte");
             ("departamento_destino", PStr "DIAC") ]).

(** An account of DIAC and the login it sends, with a department of its own
    choosing added to the payload. *)
Definition ana : User.t := User.mk 7 "ana" (toy_generate 3 "secreto") "DIAC".

Definition ana_login : pyval :=
  PDict [("username", PStr "ana"); ("password", PStr "secreto");
         ("departamento", PStr "DGA")].

(** ** Vocabulary of the further properties *)

(** The keys [create_solicitud] reads, in the order it reads them. *)
Definition required_keys : list string :=
  ["cedula"; "nombre"; "tipo"; "descripcion"; "departamento_destino"].

Definition missing (d : list (string * pyval)) (k : string) : bool :=
  match dict_lookup k d with
  | Some _ => false
  | None => true
  end.

(** The id a canvas operation announces, when it is a record header. *)
Definition draw_header (d : draw) : list Z :=
  match d with
  | DrawString _ _ [Lit s; Fmt (PInt n)] =>
      if (s =? "Solicitud ID: ")%string then [n] else []
  | _ => []
  end.

Definition event_header (e : event) : list Z :=
  match e with
  | Draw d => draw_header d
  | Break => []
  end.

(** The record headers of a document, page after page. *)
Definition doc_headers (doc : list page) : list Z :=
  flat_map draw_header (List.concat doc).

(** The height the block of a record takes: header, eight detail lines, the
    measured description and resolution, the separator and its spacing. *)
Definition block_height `{Typesetter} (s : Solicitud) : Z :=
  195 + wrapOn (descripcion s) (width - 2 * margin - 20) height
  + (if truthy (que_hizo s)
     then 35 + wrapOn (que_hizo s) (width - 2 * margin - 20) height
     else 20).

(** A page that opens with the continuation title at the top. *)
Definition continued (p : page) : Prop :=
  exists rest,
    p = SetFont "Helvetica-Bold" 18
        :: DrawString margin (height - 50) continuation :: rest.

(** Number of page breaks among events. *)
Definition breaks (es : list event) : nat :=
  List.length (filter (fun e => match e with Break => true | Draw _ => false end)
                 es).

(** A payload that is neither a dict, a list nor a str: [k in data] raises
    on it. *)
Definition scalar (v : pyval) : bool :=
  match v with
  | PDict _ | PList _ | PStr _ => false
  | _ => true
  end.

(** What a dict payload leaves in a column: its value under [k] when it has
    one, the present value otherwise. *)
Definition payload_or (d : list (string * pyval)) (k : string) (old : pyval)
  : pyval :=
  match dict_lookup k d with
  | Some v => v
  | None => old
  end.

Definition is_dict (v : pyval) : bool :=
  match v with
  | PDict _ => true
  | _ => false
  end.

(** The record headers drawn so far. *)
Definition headers (st : layout) : list Z :=
  flat_map event_header (events st).

(** The pages a layout would give if it were saved now. *)
Definition pages_so_far (st : layout) : list page :=
  shown (canvas st) ++ [current (canvas st)].

(** No page without a drawing operation. *)
Definition no_blank_page (ps : list page) : Prop :=
  Forall (fun p => p <> []) ps.

(** ** The routes

    What comes before the body of a handler: the request body Flask parses,
    the id taken from the URL, the markup reportlab parses. *)

(** The body of a request: JSON that parses to a value, a JSON content type
    whose body does not parse, or no JSON content type at all. *)
Inductive raw_body : Type :=
| JsonBody (v : pyval)
| MalformedJson
| NotJson.

Record HttpRequest : Type := mkHttp {
  cookie : Session;
  payload : raw_body
}.

(** [request.get_json()]: the parsed value, or the status of the error
    page Flask answers with. *)
Definition get_json_or_abort (b : raw_body) : pyval + Z :=
  match b with
  | JsonBody v => inl v
  | MalformedJson => inr 400
  | NotJson => inr 415
  end.

(** The largest integer SQLite binds; [get_or_404] on a larger id raises
    [OverflowError] in the driver, outside any [try]. *)
Definition sqlite_max : Z := 9223372036854775807.

(** [GET /api/solicitudes] *)
Definition route_list `{Store} (t : table) (h : HttpRequest)
  : Response * table :=
  get_solicitudes t (mkRequest (cookie h) PNone).

(** [POST /api/solicitudes] *)
Definition route_create `{Store} (t : table) (h : HttpRequest) (utcnow : Z)
  : Response * table :=
  match get_json_or_abort (payload h) with
  | inr status => ((ErrorPage, status), t)
  | inl data => create_solicitud t (mkRequest (cookie h) data) utcnow
  end.

(** [PUT /api/solicitudes/<int:id>]; the converter yields a natural
    number. *)
Definition route_update `{Store} (t : table) (h : HttpRequest) (i : N)
  : Response * table :=
  match get_json_or_abort (payload h) with
  | inr status => ((ErrorPage, status), t)
  | inl data =>
      if sqlite_max <? Z.of_N i then ((Unhandled OverflowError, 500), t)
      else update_solicitud t (mkRequest (cookie h) data) (Z.of_N i)
  end.

(** [DELETE /api/solicitudes/<int:id>]; the body is not read. *)
Definition route_delete `{Store} (t : table) (h : HttpRequest) (i : N)
  : Response * table :=
  if sqlite_max <? Z.of_N i then ((Unhandled OverflowError, 500), t)
  else delete_solicitud t (mkRequest (cookie h) PNone) (Z.of_N i).

(** [POST /api/login] *)
Definition route_login `{Accounts} (users : list User.t) (h : HttpRequest)
  : AuthResponse * Session :=
  match get_json_or_abort (payload h) with
  | inr status => ((AuthErrorPage, status), cookie h)
  | inl data => login users (cookie h) data
  end.

(** Whether reportlab builds [Paragraph(text, long_text_style)]: it parses
    the text as markup and raises [ValueError] on what it cannot parse. *)
Class Markup : Type := {
  parses : pyval -> bool
}.

(** The texts of a record that the loop hands to [Paragraph]. *)
Definition paragraph_texts (s : Solicitud) : list pyval :=
  descripcion s :: (if truthy (que_hizo s) then [que_hizo s] else []).

Definition renderable `{Markup} (solicitudes : table) : bool :=
  forallb (fun s => forallb parses (paragraph_texts s)) solicitudes.

(** [POST /api/export-pdf]: a text that does not parse ends the loop in an
    exception nothing catches. *)
Definition route_export `{Store} `{Typesetter} `{Markup} (t : table)
    (h : HttpRequest) (now : Z) : Response * table :=
  match get_json_or_abort (payload h) with
  | inr status => ((ErrorPage, status), t)
  | inl data =>
      match select t data with
      | Ok (Some solicitudes) =>
          if renderable solicitudes
          then export_pdf t (mkRequest (cookie h) data) now
          else ((Unhandled ValueError, 500), t)
      | _ => export_pdf t (mkRequest (cookie h) data) now
      end
  end.

(** Markup that takes text without tags only. *)
Definition plain_markup : Markup :=
  {| parses := fun v =>
       match v with
       | PStr s => negb (is_substring "<" s)
       | _ => false
       end |}.

(** Modelled from the spec: the [ORDER BY fecha_creacion DESC] of the
    database, SQLite, whose sorter is not part of app.py.  The rows come from
    the table scan in insertion order and are ordered by creation time
    descending, rows of equal time keeping their insertion order. *)
Definition sqlite_order_by (rows : table) : table := sort_rows true rows.

(** What a canvas operation writes. *)
Definition draw_text (d : draw) : list (list frag) :=
  match d with
  | DrawString _ _ text => [text]
  | DrawParagraph _ _ text _ => [[Fmt text]]
  | _ => []
  end.

Definition event_text (e : event) : list (list frag) :=
  match e with
  | Draw d => draw_text d
  | Break => []
  end.

(** The lines and text blocks written so far, and those of a document. *)
Definition texts (st : layout) : list (list frag) :=
  flat_map event_text (events st).

Definition doc_texts (doc : list page) : list (list frag) :=
  flat_map draw_text (List.concat doc).

(** Everything the block of a record writes, in order. *)
Definition block_texts (s : Solicitud) : list (list frag) :=
  header s :: details s
  ++ [[Lit "Descripción:"]; [Fmt (descripcion s)]]
  ++ (if truthy (que_hizo s)
      then [[Lit "Resolución:"]; [Fmt (que_hizo s)]]
      else [[Lit "Resolución: N/A"]]).

(** A payload value under [k] that the text columns keep as it is: a str,
    or no value at all. *)
Definition text_or_absent (d : list (string * pyval)) (k : string) : bool :=
  match dict_lookup k d with
  | Some (PStr _) | None => true
  | Some _ => false
  end.

(** The same for a nullable column, which keeps a null as well. *)
Definition text_null_or_absent (d : list (string * pyval)) (k : string)
  : bool :=
  match dict_lookup k d with
  | Some (PStr _) | Some PNone | None => true
  | Some _ => false
  end.

(** Further sample data: a request whose description is broken markup, and
    requests as they arrive. *)
Definition row4 : Solicitud :=
  mkSolicitud 4 (PStr "V-4") (PStr "Juan") "DTISC" (PStr "Soporte")
    (PStr "Impresora <b>rota") (PStr "DIAC") 3000 (PStr "Recibida") PNone
    PNone.


(** DGA sent requests 2, 5 and 3; requests 2 and 5 carry the same date and
    request 3 a later one. *)
Definition row5 : Solicitud :=
  mkSolicitud 5 (PStr "V-5") (PStr "Rosa") "DGA" (PStr "Pago")
    (PStr "Recibo") (PStr "DIE") 1000 (PStr "Recibida") PNone PNone.

Definition three_for_dga : table := [row2; row5; row3].

(** * Properties *)

(** ** Two stores that meet the interface *)

Section SortedInsertion.

Variable ties_first : bool.

Lemma goes_before_newer a b :
  goes_before ties_first a b = true -> newer_first a b.
Proof.
  unfold goes_before, newer_first.
  destruct ties_first; intros Hb;
    [apply Z.leb_le in Hb | apply Z.ltb_lt in Hb]; lia.
Qed.

Lemma not_goes_before_newer a b :
  goes_before ties_first a b = false -> newer_first b a.
Proof.
  unfold goes_before, newer_first.
  destruct ties_first; intros Hb;
    [apply Z.leb_gt in Hb | apply Z.ltb_ge in Hb]; lia.
Qed.

Lemma insert_row_permutation a l :
  Permutation (a :: l) (insert_row ties_first a l).
Proof.
  induction l as [|b l IH]; simpl.
  - apply Permutation_refl.
  - destruct (goes_before ties_first a b).
    + apply Permutation_refl.
    + eapply perm_trans; [apply perm_swap|].
      apply perm_skip, IH.
Qed.

Lemma sort_rows_permutation l : Permutation l (sort_rows ties_first l).
Proof.
  induction l as [|a l IH]; simpl.
  - apply perm_nil.
  - eapply perm_trans; [apply perm_skip, IH|].
    apply insert_row_permutation.
Qed.

Lemma newer_first_trans a b c :
  newer_first a b -> newer_first b c -> newer_first a c.
Proof. unfold newer_first; lia. Qed.

Lemma insert_row_sorted a l :
  StronglySorted newer_first l ->
  StronglySorted newer_first (insert_row ties_first a l).
Proof.
  induction 1 as [|b l Hs IH Hall]; simpl.
  - constructor; constructor.
  - destruct (goes_before ties_first a b) eqn:Hab.
    + constructor.
      * constructor; assumption.
      * constructor.
        -- apply goes_before_newer, Hab.
        -- eapply Forall_impl; [|exact Hall].
           intros c Hc. eapply newer_first_trans; [|exact Hc].
           apply goes_before_newer, Hab.
    + constructor; [exact IH|].
      eapply Permutation_Forall; [apply insert_row_permutation|].
      constructor; [|exact Hall].
      apply not_goes_before_newer, Hab.
Qed.

Lemma sort_rows_sorted l :
  StronglySorted newer_first (sort_rows ties_first l).
Proof.
  induction l as [|a l IH]; simpl.
  - constructor.
  - apply insert_row_sorted, IH.
Qed.

End SortedInsertion.

(** A store that keeps rows of equal date in insertion order and enforces
    the [nullable=False] columns. *)
Definition stable_store : Store :=
  {| order_by_fecha_desc := sort_rows true;
     order_by_permutation := sort_rows_permutation true;
     order_by_sorted := sort_rows_sorted true;
     id_in := in_int_list;
     commit := fun _ new => forallb not_null new;
     next_id := fun t => max_id t + 1 |}.

(** ** Lookup and in-place update of a row *)

Lemma get_id i t s : get i t = Some s -> id s = i.
Proof.
  unfold get. intros Hf. apply find_some in Hf.
  destruct Hf as [_ Hi]. apply Z.eqb_eq, Hi.
Qed.

Lemma get_replace i t s s' :
  get i t = Some s -> id s' = i -> get i (replace s' t) = Some s'.
Proof.
  unfold get, replace. intros Hg Hi. subst i.
  induction t as [|a t IH]; simpl in *; [discriminate|].
  destruct (id a =? id s') eqn:Ha.
  - simpl. rewrite Z.eqb_refl. reflexivity.
  - simpl. rewrite Ha. apply IH, Hg.
Qed.

(** ** Conditional assignment *)

Lemma assign_if_present_cases k set data s s' :
  assign_if_present k set data s = Ok s' ->
  (contains k data = Ok false /\ s' = s) \/
  (exists v, contains k data = Ok true /\ getitem data k = Ok v /\
             s' = set v s).
Proof.
  unfold assign_if_present, bind.
  destruct (contains k data) as [[|]|e]; [| |discriminate].
  - destruct (getitem data k) as [v|e]; [|discriminate].
    intros [= <-]. right. exists v. auto.
  - intros [= <-]. left. auto.
Qed.

Ltac split_all := repeat match goal with |- _ /\ _ => split end.

Ltac assign_step H :=
  apply assign_if_present_cases in H;
  destruct H as [[? ?] | (? & ? & ? & ?)]; subst.

(** The sender branch: what it returns and what it may have written. *)
Lemma sender_branch dep data s r :
  dep = dependencia s ->
  apply_update dep data s = Ok r ->
  exists s', r = Some s' /\ same_identity s s' /\ same_answer s s' /\
    (contains "descripcion" data <> Ok true ->
     descripcion s' = descripcion s) /\
    (contains "departamento_destino" data <> Ok true ->
     departamento_destino s' = departamento_destino s).
Proof.
  intros Hd. unfold apply_update. subst dep. rewrite String.eqb_refl.
  unfold bind.
  destruct (assign_if_present "descripcion" set_descripcion data s)
    as [s1|] eqn:H1; [|discriminate].
  destruct (assign_if_present "departamento_destino" set_departamento_destino
              data s1) as [s2|] eqn:H2; [|discriminate].
  intros [= <-]. exists s2.
  assign_step H1; assign_step H2; unfold same_identity, same_answer;
    simpl; split_all; try reflexivity; try congruence;
    intros Hn; exfalso; apply Hn; assumption.
Qed.

(** The recipient branch. *)
Lemma recipient_branch dep data s r :
  dep <> dependencia s ->
  departamento_destino s = PStr dep ->
  apply_update dep data s = Ok r ->
  exists s', r = Some s' /\ same_identity s s' /\ same_request s s' /\
    (contains "estado" data <> Ok true -> status s' = status s) /\
    (contains "quien_atendio" data <> Ok true ->
     quien_atendio s' = quien_atendio s) /\
    (contains "que_hizo" data <> Ok true -> que_hizo s' = que_hizo s).
Proof.
  intros Hd Hr. unfold apply_update.
  apply String.eqb_neq in Hd. rewrite Hd. rewrite Hr. simpl.
  rewrite String.eqb_refl. unfold bind.
  destruct (assign_if_present "estado" set_status data s)
    as [s1|] eqn:H1; [|discriminate].
  destruct (assign_if_present "quien_atendio" set_quien_atendio data s1)
    as [s2|] eqn:H2; [|discriminate].
  destruct (assign_if_present "que_hizo" set_que_hizo data s2)
    as [s3|] eqn:H3; [|discriminate].
  intros [= <-]. exists s3.
  assign_step H1; assign_step H2; assign_step H3;
    unfold same_identity, same_request;
    simpl; split_all; try reflexivity; try congruence;
    intros Hn; exfalso; apply Hn; assumption.
Qed.

(** The third branch. *)
Lemma outsider_branch dep data s :
  dep <> dependencia s ->
  departamento_destino s <> PStr dep ->
  apply_update dep data s = Ok None.
Proof.
  intros Hd Hr. unfold apply_update.
  apply String.eqb_neq in Hd. rewrite Hd.
  destruct (eq_str (departamento_destino s) dep) eqn:He; [|reflexivity].
  exfalso. apply Hr. unfold eq_str in He.
  destruct (departamento_destino s); try discriminate.
  apply String.eqb_eq in He. congruence.
Qed.

(** ** Role-gated update *)

Section Update.

Context `{Store}.

(** The record [update_solicitud] leaves under [i], whatever the commit
    did, is one the role dispatch produced or the one that was there. *)
Lemma update_outcome t req i solicitud dep resp t' :
  get i t = Some solicitud ->
  resolve (session req) = Some dep ->
  update_solicitud t req i = (resp, t') ->
  t' = t \/
  exists s', apply_update dep (get_json req) solicitud = Ok (Some s') /\
             t' = replace s' t /\ code resp = 200.
Proof.
  intros Hg Hr. unfold update_solicitud. rewrite Hg, Hr.
  destruct (apply_update dep (get_json req) solicitud) as [[s'|]|e].
  - destruct (commit t (replace s' t)); intros [= <- <-].
    + right. exists s'. auto.
    + left. reflexivity.
  - intros [= <- <-]. left. reflexivity.
  - intros [= <- <-]. left. reflexivity.
Qed.

End Update.

(** C1. Sender role: when the acting department is the record's
    [dependencia], the record found under the same id after
    [update_solicitud] has the [status], [quien_atendio] and [que_hizo] it
    had before, whatever the payload holds, and the same id, cedula, nombre,
    dependencia, tipo and fecha_creacion; [descripcion] and
    [departamento_destino] are as before unless the payload contains their
    key. *)
Theorem sender_update_keeps_answer `{Store} t req i solicitud dep resp t' :
  get i t = Some solicitud ->
  resolve (session req) = Some dep ->
  dep = dependencia solicitud ->
  update_solicitud t req i = (resp, t') ->
  exists s', get i t' = Some s' /\
    status s' = status solicitud /\
    quien_atendio s' = quien_atendio solicitud /\
    que_hizo s' = que_hizo solicitud /\
    same_identity solicitud s' /\
    (contains "descripcion" (get_json req) <> Ok true ->
     descripcion s' = descripcion solicitud) /\
    (contains "departamento_destino" (get_json req) <> Ok true ->
     departamento_destino s' = departamento_destino solicitud).
Proof.
  intros Hg Hr Hd Hu.
  destruct (update_outcome t req i solicitud dep resp t' Hg Hr Hu)
    as [-> | (s' & Ha & -> & _)].
  - exists solicitud. unfold same_identity. split_all; auto.
  - destruct (sender_branch dep (get_json req) solicitud _ Hd Ha)
      as (s'' & [= <-] & Hid & (Hs & Hq & Hh) & Hdesc & Hdest).
    exists s'. split_all; auto.
    apply (get_replace i t solicitud s' Hg).
    destruct Hid as [Hid _]. rewrite Hid. apply (get_id i t), Hg.
Qed.

(** C2. Recipient role: when the acting department is the record's
    [departamento_destino] and not its [dependencia], the record found under
    the same id after [update_solicitud] has the [descripcion] and
    [departamento_destino] it had before, whatever the payload holds, and the
    same id, cedula, nombre, dependencia, tipo and fecha_creacion; [status]
    (payload key [estado]), [quien_atendio] and [que_hizo] are as before
    unless the payload contains their key. *)
Theorem recipient_update_keeps_request `{Store} t req i solicitud dep resp t' :
  get i t = Some solicitud ->
  resolve (session req) = Some dep ->
  departamento_destino solicitud = PStr dep ->
  dep <> dependencia solicitud ->
  update_solicitud t req i = (resp, t') ->
  exists s', get i t' = Some s' /\
    descripcion s' = descripcion solicitud /\
    departamento_destino s' = departamento_destino solicitud /\
    same_identity solicitud s' /\
    (contains "estado" (get_json req) <> Ok true ->
     status s' = status solicitud) /\
    (contains "quien_atendio" (get_json req) <> Ok true ->
     quien_atendio s' = quien_atendio solicitud) /\
    (contains "que_hizo" (get_json req) <> Ok true ->
     que_hizo s' = que_hizo solicitud).
Proof.
  intros Hg Hr Hdest Hd Hu.
  destruct (update_outcome t req i solicitud dep resp t' Hg Hr Hu)
    as [-> | (s' & Ha & -> & _)].
  - exists solicitud. unfold same_identity. split_all; auto.
  - destruct (recipient_branch dep (get_json req) solicitud _ Hd Hdest Ha)
      as (s'' & [= <-] & Hid & (Hde & Hdd) & Hs & Hq & Hh).
    exists s'. split_all; auto.
    apply (get_replace i t solicitud s' Hg).
    destruct Hid as [Hid _]. rewrite Hid. apply (get_id i t), Hg.
Qed.

(** C3. A department that is neither the record's [dependencia] nor its
    [departamento_destino] gets the 403 answer from [update_solicitud] and
    the whole table, hence every field of the record, is as it was. *)
Theorem outsider_update_forbidden `{Store} t req i solicitud dep :
  get i t = Some solicitud ->
  resolve (session req) = Some dep ->
  dep <> dependencia solicitud ->
  departamento_destino solicitud <> PStr dep ->
  update_solicitud t req i =
    ((Message "No tienes permiso para modificar esta tarea.", 403), t).
Proof.
  intros Hg Hr Hd Hdest. unfold update_solicitud.
  rewrite Hg, Hr, (outsider_branch dep _ solicitud Hd Hdest). reflexivity.
Qed.

Lemma sender_update_keeps_answer_witness :
  exists s',
    get 1 (snd (@update_solicitud stable_store sample sender_payload 1))
      = Some s' /\
    status s' = PStr "Recibida" /\ quien_atendio s' = PNone /\
    que_hizo s' = PNone.
Proof.
  destruct (@sender_update_keeps_answer stable_store sample sender_payload 1
              row1 "DTISC"
              (fst (@update_solicitud stable_store sample sender_payload 1))
              (snd (@update_solicitud stable_store sample sender_payload 1)))
    as (s' & Hg & Hs & Hq & Hh & _).
  - reflexivity.
  - reflexivity.
  - reflexivity.
  - apply surjective_pairing.
  - exists s'. repeat split; assumption.
Defined.

(** The same run does write the sender's own column. *)
Example sender_update_writes_descripcion :
  option_map descripcion
    (get 1 (snd (@update_solicitud stable_store sample sender_payload 1)))
  = Some (PStr "Sin red ni telefono").
Proof. reflexivity. Qed.

Lemma recipient_update_keeps_request_witness :
  exists s',
    get 1 (snd (@update_solicitud stable_store sample recipient_payload 1))
      = Some s' /\
    descripcion s' = PStr "Sin red" /\ departamento_destino s' = PStr "DIAC" /\
    que_hizo s' = PNone.
Proof.
  destruct (@recipient_update_keeps_request stable_store sample
              recipient_payload 1 row1 "DIAC"
              (fst (@update_solicitud stable_store sample recipient_payload 1))
              (snd (@update_solicitud stable_store sample recipient_payload 1)))
    as (s' & Hg & Hd & Hdd & _ & _ & _ & Hh).
  - reflexivity.
  - reflexivity.
  - reflexivity.
  - discriminate.
  - apply surjective_pairing.
  - exists s'. repeat split; try assumption.
    apply Hh. discriminate.
Defined.

Example recipient_update_writes_status :
  option_map (fun s => (status s, quien_atendio s))
    (get 1 (snd (@update_solicitud stable_store sample recipient_payload 1)))
  = Some (PStr "Atendida", PStr "Maria").
Proof. reflexivity. Qed.

(** DGA is neither sender nor recipient of request 1. *)
Lemma outsider_update_forbidden_witness :
  @update_solicitud stable_store sample
    (mkRequest dga (PDict [("estado", PStr "Cerrada")])) 1
  = ((Message "No tienes permiso para modificar esta tarea.", 403), sample).
Proof.
  apply (@outsider_update_forbidden stable_store sample
           (mkRequest dga (PDict [("estado", PStr "Cerrada")])) 1 row1 "DGA").
  - reflexivity.
  - reflexivity.
  - discriminate.
  - discriminate.
Defined.

(** ** Creation *)

Lemma new_solicitud_stamps dep data i utcnow s :
  new_solicitud dep data i utcnow = Ok s ->
  status s = PStr "Recibida" /\ dependencia s = dep /\
  id s = i /\ fecha_creacion s = utcnow /\
  quien_atendio s = PNone /\ que_hizo s = PNone.
Proof.
  unfold new_solicitud, bind.
  repeat match goal with
         | |- context [getitem ?d ?k] => destruct (getitem d k); [|discriminate]
         end.
  intros [= <-]. simpl. repeat split.
Qed.

Lemma append_one_grows (t : table) r : t ++ [r] <> t.
Proof.
  intros Happ. apply (f_equal (@List.length Solicitud)) in Happ.
  rewrite List.length_app in Happ. simpl in Happ. lia.
Qed.

(** C4, as stated, fails: the status stamped on a created record is the
    literal ["Recibida"], not ["Received"]. *)
Lemma created_status_is_not_Received :
  exists r,
    @create_solicitud stable_store sample creation_payload 3000
      = ((Message "Tarea creada con éxito", 201), sample ++ [r]) /\
    status r <> PStr "Received".
Proof.
  eexists. split.
  - reflexivity.
  - simpl. discriminate.
Qed.

(** C4, amended. For a caller whose session resolves to department [dep],
    [create_solicitud] either rejects and leaves the table as it was, or
    answers 201 and appends exactly one record; that record has status
    ["Recibida"] and [dependencia] equal to [dep], whatever the payload
    holds under [status] or [dependencia]. *)
Theorem create_stamps_status_and_dependencia `{Store} t req utcnow dep resp t' :
  resolve (session req) = Some dep ->
  create_solicitud t req utcnow = (resp, t') ->
  (t' = t /\ code resp = 400) \/
  (exists r, t' = t ++ [r] /\ code resp = 201 /\
             status r = PStr "Recibida" /\ dependencia r = dep).
Proof.
  intros Hr. unfold create_solicitud. rewrite Hr.
  destruct (new_solicitud dep (get_json req) (next_id t) utcnow)
    as [s|e] eqn:Hn.
  - destruct (commit t (t ++ [s])); intros [= <- <-].
    + right. exists s.
      destruct (new_solicitud_stamps _ _ _ _ _ Hn) as (Hs & Hd & _).
      auto.
    + left. auto.
  - intros [= <- <-]. left. auto.
Qed.

Lemma create_stamps_status_and_dependencia_witness :
  exists r,
    snd (@create_solicitud stable_store sample creation_payload 3000)
      = sample ++ [r] /\
    status r = PStr "Recibida" /\ dependencia r = "DTISC".
Proof.
  destruct (@create_stamps_status_and_dependencia stable_store sample
              creation_payload 3000 "DTISC"
              (fst (@create_solicitud stable_store sample creation_payload 3000))
              (snd (@create_solicitud stable_store sample creation_payload 3000)))
    as [[Hsame _] | (r & Happ & _ & Hs & Hd)].
  - reflexivity.
  - apply surjective_pairing.
  - exfalso. apply (append_one_grows sample
      (mkSolicitud 4 (PStr "V-4") (PStr "Juan") "DTISC" (PStr "Soporte")
         (PStr "Impresora") (PStr "DIAC") 3000 (PStr "Recibida") PNone PNone)).
    exact Hsame.
  - exists r. auto.
Defined.

(** ** Listing *)

Lemma to_dict_inj s s' : to_dict s = to_dict s' -> s = s'.
Proof.
  destruct s, s'. unfold to_dict. simpl.
  intros Heq. injection Heq. intros. subst. reflexivity.
Qed.

Lemma visible_iff dep r :
  visible dep r = true <->
  (dep = dependencia r \/ departamento_destino r = PStr dep).
Proof.
  unfold visible. rewrite orb_true_iff, String.eqb_eq. split.
  - intros [He | Hd]; [right | left; auto].
    unfold eq_str in He. destruct (departamento_destino r); try discriminate.
    apply String.eqb_eq in He. congruence.
  - intros [Hd | He]; [right; auto | left].
    rewrite He. simpl. apply String.eqb_refl.
Qed.

Lemma solicitudes_of_In `{Store} dep t r :
  In r (solicitudes_of dep t) <-> In r t /\ visible dep r = true.
Proof.
  unfold solicitudes_of. rewrite <- filter_In. split.
  - apply Permutation_in, Permutation_sym, order_by_permutation.
  - apply Permutation_in, order_by_permutation.
Qed.

(** C5. For a caller whose session resolves to department [dep],
    [get_solicitudes] answers 200 with a listing in which the dict of a
    record [r] appears exactly when [r] is stored and [dep] equals
    [r.dependencia] or [r.departamento_destino]. *)
Theorem listing_shows_exactly_visible `{Store} t req dep :
  resolve (session req) = Some dep ->
  exists listing,
    get_solicitudes t req = ((Listing listing, 200), t) /\
    forall r, In (to_dict r) listing <->
              In r t /\ (dep = dependencia r \/ departamento_destino r = PStr dep).
Proof.
  intros Hr. unfold get_solicitudes. rewrite Hr.
  eexists. split; [reflexivity|].
  intros r. rewrite <- visible_iff, <- solicitudes_of_In, in_map_iff. split.
  - intros (r' & Heq & Hin). apply to_dict_inj in Heq. subst. assumption.
  - intros Hin. exists r. auto.
Qed.

Lemma listing_shows_exactly_visible_witness :
  exists listing,
    @get_solicitudes stable_store sample (mkRequest dtisc PNone)
      = ((Listing listing, 200), sample) /\
    In (to_dict row2) listing /\ ~ In (to_dict row3) listing.
Proof.
  destruct (@listing_shows_exactly_visible stable_store sample
              (mkRequest dtisc PNone) "DTISC") as (listing & Hl & Hiff).
  - reflexivity.
  - exists listing. split; [exact Hl|]. split.
    + apply Hiff. split; [simpl; auto | right; reflexivity].
    + intros Hin. apply Hiff in Hin. destruct Hin as [_ [Hd | Hd]];
        discriminate Hd.
Defined.

(** ** Requests without a resolvable department *)

(** ** Order of the listing *)

(** With the store that inserts ahead of equal dates, ties do keep
    insertion order on the sample. *)
Example ties_kept_by_stable_store :
  @solicitudes_of stable_store "DTISC" sample = [row1; row2].
Proof. reflexivity. Qed.

(** ** The report over an empty selection *)

(** C8. When the selection of [export_pdf] comes out empty, the answer is
    200 with an attachment of exactly one page, and that page carries the
    line "No hay solicitudes para mostrar en este reporte." under the title
    and the generation date. *)
Theorem empty_selection_gives_one_page `{Store} `{Typesetter} t req now :
  select t (get_json req) = Ok (Some []) ->
  exists p,
    export_pdf t req now =
      ((Attachment "reporte_solicitudes.pdf" "application/pdf" [p], 200), t) /\
    In (DrawString margin (height - 100) no_records) p /\
    In (DrawString margin (height - 50) [Lit "Reporte de Solicitudes FUNDACITE"])
       p.
Proof.
  intros Hsel. unfold export_pdf. rewrite Hsel.
  eexists. split; [reflexivity|].
  split; simpl; auto 10.
Qed.

(** An id list that matches nothing, and every record of an empty table. *)
Lemma empty_selection_gives_one_page_witness :
  (exists p,
     @export_pdf stable_store line_count_typesetter sample
       (anonymous (PDict [("ids", PList [PInt 77; PInt 78])])) 5000
     = ((Attachment "reporte_solicitudes.pdf" "application/pdf" [p], 200),
        sample) /\
     In (DrawString 50 692 no_records) p) /\
  (exists p,
     @export_pdf stable_store line_count_typesetter []
       (anonymous (PDict [("export_all", PBool true)])) 5000
     = ((Attachment "reporte_solicitudes.pdf" "application/pdf" [p], 200), [])
     /\ In (DrawString 50 692 no_records) p).
Proof.
  split.
  - destruct (@empty_selection_gives_one_page stable_store
                line_count_typesetter sample
                (anonymous (PDict [("ids", PList [PInt 77; PInt 78])])) 5000)
      as (p & He & Hin & _).
    + reflexivity.
    + exists p. split; assumption.
  - destruct (@empty_selection_gives_one_page stable_store
                line_count_typesetter []
                (anonymous (PDict [("export_all", PBool true)])) 5000)
      as (p & He & Hin & _).
    + reflexivity.
    + exists p. split; assumption.
Defined.

(** Neither flag nor ids is a rejection, not a report. *)
Example nothing_selected :
  @export_pdf stable_store line_count_typesetter sample
    (anonymous (PDict [("ids", PList [])])) 5000
  = ((Message "No se especificaron solicitudes para exportar.", 400), sample).
Proof. reflexivity. Qed.

(** ** Pagination *)

Lemma events_emit d st : events (emit d st) = events st ++ [Draw d].
Proof.
  unfold events, emit. simpl. rewrite map_app, app_assoc. reflexivity.
Qed.

Lemma events_down n st : events (down n st) = events st.
Proof. reflexivity. Qed.

Lemma events_showPage st : events (showPage st) = events st ++ [Break].
Proof.
  unfold events, showPage. simpl.
  rewrite flat_map_app. simpl. rewrite !app_nil_r, app_assoc. reflexivity.
Qed.

Lemma draws_events ops st st' :
  draws ops st st' -> events st' = events st ++ map Draw ops.
Proof.
  intros [Hs Hc]. unfold events. rewrite Hs, Hc, map_app, app_assoc.
  reflexivity.
Qed.

Lemma appends_refl st : appends st st.
Proof. exists []. split; [reflexivity | symmetry; apply app_nil_r]. Qed.

Lemma appends_emit d st x : appends st x -> appends st (emit d x).
Proof.
  intros (ops & Hs & Hc). exists (ops ++ [d]). split; simpl.
  - exact Hs.
  - rewrite Hc, app_assoc. reflexivity.
Qed.

Lemma appends_down n st x : appends st x -> appends st (down n x).
Proof. intros (ops & Hs & Hc). exists ops. split; assumption. Qed.

Lemma appends_setFont name size st x :
  appends st x -> appends st (setFont name size x).
Proof. apply appends_emit. Qed.

Lemma appends_drawString x0 text st x :
  appends st x -> appends st (drawString x0 text x).
Proof. apply appends_emit. Qed.

Lemma appends_paragraph `{Typesetter} text pad st x :
  appends st x -> appends st (paragraph text pad x).
Proof. intros Hx. unfold paragraph. apply appends_down, appends_emit, Hx. Qed.

Ltac appends_steps :=
  repeat lazymatch goal with
         | |- appends ?a ?a => apply appends_refl
         | |- appends _ (down _ _) => apply appends_down
         | |- appends _ (setFont _ _ _) => apply appends_setFont
         | |- appends _ (drawString _ _ _) => apply appends_drawString
         | |- appends _ (paragraph _ _ _) => apply appends_paragraph
         | |- appends _ (emit _ _) => apply appends_emit
         end.

(** After its header, the block of a record only draws on the current
    page. *)
Lemma draw_solicitud_tail `{Typesetter} r st :
  appends (drawString margin (header r) (setFont "Helvetica-Bold" 12 st))
    (draw_solicitud r st).
Proof.
  unfold draw_solicitud. cbv zeta. cbn [fold_left details].
  destruct (truthy (que_hizo r)); appends_steps.
Qed.

Lemma draw_solicitud_draws `{Typesetter} r st :
  exists ops,
    draws (SetFont "Helvetica-Bold" 12
           :: DrawString margin (y_position st) (header r) :: ops)
      st (draw_solicitud r st).
Proof.
  destruct (draw_solicitud_tail r st) as (ops & Hs & Hc).
  exists ops. split.
  - rewrite Hs. reflexivity.
  - rewrite Hc. simpl. rewrite <- !app_assoc. reflexivity.
Qed.

Lemma new_page_if_low_events st :
  events (new_page_if_low st) =
  events st ++
  (if y_position st <? 100
   then [Break; Draw (SetFont "Helvetica-Bold" 18);
         Draw (DrawString margin (height - 50) continuation)]
   else []).
Proof.
  unfold new_page_if_low. destruct (y_position st <? 100).
  - rewrite events_down. unfold drawString, setFont.
    rewrite !events_emit, events_showPage, <- !app_assoc. reflexivity.
  - rewrite app_nil_r. reflexivity.
Qed.

Lemma new_page_if_low_y st :
  y_position (new_page_if_low st) =
  (if y_position st <? 100 then height - 80 else y_position st).
Proof.
  unfold new_page_if_low. destruct (y_position st <? 100); reflexivity.
Qed.

Lemma render_all_app `{Typesetter} st l1 l2 :
  render_all st (l1 ++ l2) = render_all (render_all st l1) l2.
Proof. apply fold_left_app. Qed.

Lemma render_solicitud_extends `{Typesetter} st r :
  exists more, events (render_solicitud st r) = events st ++ more.
Proof.
  unfold render_solicitud.
  destruct (draw_solicitud_draws r (new_page_if_low st)) as [ops Hd].
  apply draws_events in Hd. rewrite Hd, new_page_if_low_events, <- app_assoc.
  eexists. reflexivity.
Qed.

(** What was drawn stays drawn: the events after more records extend the
    events before them. *)
Lemma render_all_extends `{Typesetter} l st :
  exists more, events (render_all st l) = events st ++ more.
Proof.
  revert st. induction l as [|r l IH]; intros st.
  - exists []. rewrite app_nil_r. reflexivity.
  - change (render_all st (r :: l))
      with (render_all (render_solicitud st r) l).
    destruct (IH (render_solicitud st r)) as [m1 H1].
    destruct (render_solicitud_extends st r) as [m2 H2].
    exists (m2 ++ m1).
    rewrite H1, H2, app_assoc. reflexivity.
Qed.

(** C9. Pagination is a greedy forward pass.  Take the records in any
    place [pre ++ r :: post] of the sequence, with [st] the canvas and
    cursor after [pre].  Before the block of [r] the cursor is tested: when
    it is below 100 a page break is emitted, the cursor goes back to the top
    and the continuation title is drawn there, and when it is not, nothing is
    emitted.  The header of [r] is the next thing drawn, at a cursor of at
    least 100, and the rest of the block of [r] is drawn with no page break
    inside it.  Everything emitted up to there is kept as it is by the
    records that follow. *)
Theorem pagination_is_greedy `{Typesetter} st0 pre r post :
  let st := render_all st0 pre in
  let start := new_page_if_low st in
  events start =
    events st ++
    (if y_position st <? 100
     then [Break; Draw (SetFont "Helvetica-Bold" 18);
           Draw (DrawString margin (height - 50) continuation)]
     else []) /\
  y_position start =
    (if y_position st <? 100 then height - 80 else y_position st) /\
  100 <= y_position start /\
  (exists ops,
     events (render_solicitud st r) =
     events start ++
     map Draw (SetFont "Helvetica-Bold" 12
               :: DrawString margin (y_position start) (header r) :: ops)) /\
  (exists more,
     events (render_all st0 (pre ++ r :: post)) =
     events (render_solicitud st r) ++ more).
Proof.
  intros st start. split; [apply new_page_if_low_events|].
  split; [apply new_page_if_low_y|]. split; [|split].
  - subst start. rewrite new_page_if_low_y.
    destruct (y_position st <? 100) eqn:Hy.
    + unfold height. lia.
    + apply Z.ltb_ge in Hy. exact Hy.
  - destruct (draw_solicitud_draws r start) as [ops Hd].
    exists ops. apply draws_events in Hd. exact Hd.
  - rewrite render_all_app. fold st. simpl.
    apply (render_all_extends post (render_solicitud st r)).
Qed.

(** The pages of a report over at least one record are the pages shown
    during the loop followed by the page the loop ended on. *)
Lemma report_pages `{Typesetter} now r l :
  let fin := render_all (report_head now) (r :: l) in
  report now (r :: l) = shown (canvas fin) ++ [current (canvas fin)].
Proof.
  intros fin. unfold report. fold fin. unfold save.
  destruct (current (canvas fin)) eqn:Hc; [|reflexivity].
  exfalso. subst fin.
  destruct (exists_last (l := r :: l)) as (l' & r' & Hl); [discriminate|].
  rewrite Hl, render_all_app in Hc.
  change (render_all (render_all (report_head now) l') [r'])
    with (draw_solicitud r'
            (new_page_if_low (render_all (report_head now) l'))) in Hc.
  destruct (draw_solicitud_draws r'
              (new_page_if_low (render_all (report_head now) l')))
    as (ops & _ & Hcur).
  rewrite Hcur in Hc. destruct (current _); discriminate Hc.
Qed.

(** Each record of the sample takes 229 units, so the cursor, at 692 after
    the head, is at 5 after three of them: the fourth opens a second page and
    its header is drawn at 712. *)
Example four_records_two_pages :
  let doc := @report line_count_typesetter 5000 [row1; row2; row1; row2] in
  List.length doc = 2%nat /\
  y_position (@render_all line_count_typesetter (report_head 5000)
                [row1; row2; row1]) = 5 /\
  (exists rest,
     nth 1 doc [] =
     SetFont "Helvetica-Bold" 18
     :: DrawString 50 742 continuation
     :: SetFont "Helvetica-Bold" 12
     :: DrawString 50 712 (header row2) :: rest).
Proof.
  vm_compute. split; [reflexivity|]. split; [reflexivity|].
  eexists. reflexivity.
Qed.

(** ** The export and the session *)

Example anonymous_export_all :
  exists doc,
    @export_pdf stable_store line_count_typesetter sample
      (anonymous (PDict [("export_all", PBool true)])) 5000
    = ((Attachment "reporte_solicitudes.pdf" "application/pdf" doc, 200),
       sample) /\
    In (DrawString 50 692 (header row1)) (nth 0 doc []) /\
    In (DrawString 50 234 (header row3)) (nth 0 doc []).
Proof.
  vm_compute. eexists. split; [reflexivity|].
  split; repeat (first [left; reflexivity | right]).
Qed.

(** * Further properties of the handlers *)

(** ** Update: the rest of the table, atomicity, what is written *)

Lemma eq_str_true v s : eq_str v s = true -> v = PStr s.
Proof.
  unfold eq_str. destruct v; try discriminate.
  intros He. apply String.eqb_eq in He. congruence.
Qed.

Lemma apply_update_identity dep data s s' :
  apply_update dep data s = Ok (Some s') -> same_identity s s'.
Proof.
  intros Ha.
  destruct (String.eqb_spec dep (dependencia s)) as [Hd | Hd].
  - destruct (sender_branch dep data s _ Hd Ha) as (s'' & [= <-] & Hid & _).
    exact Hid.
  - destruct (eq_str (departamento_destino s) dep) eqn:He.
    + apply eq_str_true in He.
      destruct (recipient_branch dep data s _ Hd He Ha)
        as (s'' & [= <-] & Hid & _).
      exact Hid.
    + unfold apply_update in Ha. apply String.eqb_neq in Hd.
      rewrite Hd, He in Ha. discriminate.
Qed.

Lemma replace_ids s' t : map id (replace s' t) = map id t.
Proof.
  unfold replace. induction t as [|a t IH]; simpl; [reflexivity|].
  rewrite IH. destruct (id a =? id s') eqn:Ha; [|reflexivity].
  apply Z.eqb_eq in Ha. congruence.
Qed.

Lemma get_replace_other i t s' :
  id s' <> i -> get i (replace s' t) = get i t.
Proof.
  unfold get, replace. intros Hi.
  induction t as [|a t IH]; simpl; [reflexivity|].
  destruct (id a =? id s') eqn:Ha; simpl.
  - apply Z.eqb_eq in Ha.
    assert (Hs : (id s' =? i) = false) by (apply Z.eqb_neq, Hi).
    assert (Hai : (id a =? i) = false) by (apply Z.eqb_neq; congruence).
    rewrite Hs, Hai. apply IH.
  - destruct (id a =? i); [reflexivity | apply IH].
Qed.

(** Every way [update_solicitud] can end. *)
Lemma update_cases `{Store} t req i resp t' :
  update_solicitud t req i = (resp, t') ->
  (t' = t /\ (code resp = 400 \/ code resp = 401 \/ code resp = 403 \/
              code resp = 404)) \/
  (exists s dep s',
     get i t = Some s /\ resolve (session req) = Some dep /\
     apply_update dep (get_json req) s = Ok (Some s') /\
     commit t (replace s' t) = true /\
     t' = replace s' t /\ code resp = 200).
Proof.
  unfold update_solicitud.
  destruct (get i t) as [s|]; [|intros [= <- <-]; left; simpl; auto].
  destruct (resolve (session req)) as [dep|];
    [|intros [= <- <-]; left; simpl; auto].
  destruct (apply_update dep (get_json req) s) as [[s'|]|e] eqn:Ha;
    [|intros [= <- <-]; left; simpl; auto..].
  destruct (commit t (replace s' t)) eqn:Hc; intros [= <- <-].
  - right. exists s, dep, s'. auto 10.
  - left. simpl. auto.
Qed.

(** X1. [update_solicitud] touches at most the record it was called for:
    the ids of the table, in order, are as before, and every other id still
    finds the record it found. *)
Theorem update_keeps_other_records `{Store} t req i resp t' j :
  update_solicitud t req i = (resp, t') ->
  j <> i ->
  map id t' = map id t /\ get j t' = get j t.
Proof.
  intros Hu Hj.
  destruct (update_cases t req i resp t' Hu)
    as [[-> _] | (s & dep & s' & Hg & _ & Ha & _ & -> & _)].
  - auto.
  - split; [apply replace_ids|].
    apply get_replace_other.
    destruct (apply_update_identity _ _ _ _ Ha) as [Hid _].
    rewrite Hid, (get_id i t s Hg). auto.
Qed.

Lemma update_keeps_other_records_witness :
  get 2 (snd (@update_solicitud stable_store sample sender_payload 1))
    = Some row2 /\
  map id (snd (@update_solicitud stable_store sample sender_payload 1))
    = [1; 2; 3].
Proof.
  destruct (@update_keeps_other_records stable_store sample sender_payload 1
              (fst (@update_solicitud stable_store sample sender_payload 1))
              (snd (@update_solicitud stable_store sample sender_payload 1)) 2)
    as [Hids Hget].
  - apply surjective_pairing.
  - discriminate.
  - split; [rewrite Hget; reflexivity | rewrite Hids; reflexivity].
Defined.

Lemma assign_if_present_dict k set d s :
  assign_if_present k set (PDict d) s =
  Ok (match dict_lookup k d with Some v => set v s | None => s end).
Proof.
  unfold assign_if_present, bind, contains, getitem.
  destruct (dict_lookup k d); reflexivity.
Qed.

(** The record the sender branch builds from a dict payload. *)
Lemma sender_branch_dict dep d s :
  dep = dependencia s ->
  apply_update dep (PDict d) s =
  Ok (Some (set_departamento_destino
              (payload_or d "departamento_destino" (departamento_destino s))
              (set_descripcion (payload_or d "descripcion" (descripcion s))
                 s))).
Proof.
  intros ->. unfold apply_update, bind, payload_or.
  rewrite String.eqb_refl, !assign_if_present_dict.
  destruct s.
  destruct (dict_lookup "descripcion" d),
           (dict_lookup "departamento_destino" d); reflexivity.
Qed.

(** The record the recipient branch builds from a dict payload. *)
Lemma recipient_branch_dict dep d s :
  dep <> dependencia s ->
  departamento_destino s = PStr dep ->
  apply_update dep (PDict d) s =
  Ok (Some (set_que_hizo (payload_or d "que_hizo" (que_hizo s))
              (set_quien_atendio
                 (payload_or d "quien_atendio" (quien_atendio s))
                 (set_status (payload_or d "estado" (status s)) s)))).
Proof.
  intros Hd Hr. unfold apply_update, bind, payload_or.
  apply String.eqb_neq in Hd. rewrite Hd, Hr. simpl eq_str.
  rewrite String.eqb_refl, !assign_if_present_dict.
  destruct s.
  destruct (dict_lookup "estado" d), (dict_lookup "quien_atendio" d),
           (dict_lookup "que_hizo" d); reflexivity.
Qed.

(** An accepted update leaves under [i] the record the dispatch built. *)
Lemma update_accepted `{Store} t req i s dep resp t' :
  get i t = Some s ->
  resolve (session req) = Some dep ->
  update_solicitud t req i = (resp, t') ->
  code resp = 200 ->
  exists s', apply_update dep (get_json req) s = Ok (Some s') /\
             get i t' = Some s'.
Proof.
  intros Hg Hr Hu Hcode.
  destruct (update_cases t req i resp t' Hu)
    as [[_ Hc] | (s0 & dep0 & s' & Hg0 & Hr0 & Ha & _ & -> & _)].
  - rewrite Hcode in Hc. destruct Hc as [Hc | [Hc | [Hc | Hc]]]; discriminate.
  - rewrite Hg in Hg0. rewrite Hr in Hr0.
    injection Hg0 as <-. injection Hr0 as <-.
    exists s'. split; [exact Ha|].
    apply (get_replace i t s s' Hg).
    destruct (apply_update_identity _ _ _ _ Ha) as [Hid _].
    rewrite Hid. apply (get_id i t s Hg).
Qed.

Lemma payload_or_to_dict s :
  payload_or (to_dict s) "descripcion" (descripcion s) = descripcion s /\
  payload_or (to_dict s) "departamento_destino" (departamento_destino s)
    = departamento_destino s /\
  payload_or (to_dict s) "estado" (status s) = status s /\
  payload_or (to_dict s) "quien_atendio" (quien_atendio s) = quien_atendio s /\
  payload_or (to_dict s) "que_hizo" (que_hizo s) = que_hizo s.
Proof. repeat split. Qed.

Lemma apply_update_to_dict dep s :
  dep = dependencia s \/ departamento_destino s = PStr dep ->
  apply_update dep (PDict (to_dict s)) s = Ok (Some s).
Proof.
  intros Hrole.
  destruct (payload_or_to_dict s) as (H1 & H2 & H3 & H4 & H5).
  destruct (String.eqb_spec dep (dependencia s)) as [Hd | Hd].
  - rewrite (sender_branch_dict dep _ s Hd), H1, H2.
    destruct s; reflexivity.
  - destruct Hrole as [Hd' | Hr]; [contradiction|].
    rewrite (recipient_branch_dict dep _ s Hd Hr), H3, H4, H5.
    destruct s; reflexivity.
Qed.

(** X5. Sending back the dict the listing gave for a record changes
    nothing: whether the caller is sender or recipient of the record, after
    [update_solicitud] with the payload [to_dict s] the record under that id
    is still [s]. *)
Theorem listed_dict_written_back `{Store} t sess i s dep resp t' :
  get i t = Some s ->
  resolve sess = Some dep ->
  dep = dependencia s \/ departamento_destino s = PStr dep ->
  update_solicitud t (mkRequest sess (PDict (to_dict s))) i = (resp, t') ->
  get i t' = Some s.
Proof.
  intros Hg Hr Hrole Hu.
  destruct (update_cases _ _ _ _ _ Hu)
    as [[-> _] | (s0 & dep0 & s' & Hg0 & Hr0 & Ha & _ & -> & _)].
  - exact Hg.
  - simpl in Hr0, Ha. rewrite Hg in Hg0. rewrite Hr in Hr0.
    injection Hg0 as <-. injection Hr0 as <-.
    rewrite (apply_update_to_dict dep s Hrole) in Ha. injection Ha as <-.
    apply (get_replace i t s s Hg), (get_id i t s Hg).
Qed.

Lemma listed_dict_written_back_witness :
  get 3 (snd (@update_solicitud stable_store sample
                (mkRequest dga (PDict (to_dict row3))) 3)) = Some row3.
Proof.
  apply (@listed_dict_written_back stable_store sample dga 3 row3 "DGA"
           (fst (@update_solicitud stable_store sample
                   (mkRequest dga (PDict (to_dict row3))) 3))).
  - reflexivity.
  - reflexivity.
  - left. reflexivity.
  - apply surjective_pairing.
Defined.



Lemma contains_scalar k data : scalar data = true -> contains k data = Raise TypeError.
Proof. destruct data; simpl; intros Hs; try discriminate; reflexivity. Qed.

(** X7. A payload that is null, a boolean or a number makes the update of
    a sender or recipient fail inside the handler: the answer is 400 with the
    [TypeError], and the table is the one given. *)
Theorem update_with_scalar_payload `{Store} t req i s dep :
  get i t = Some s ->
  resolve (session req) = Some dep ->
  dep = dependencia s \/ departamento_destino s = PStr dep ->
  scalar (get_json req) = true ->
  update_solicitud t req i =
    ((MessageError "Error al actualizar la tarea" TypeError, 400), t).
Proof.
  intros Hg Hr Hrole Hs. unfold update_solicitud. rewrite Hg, Hr.
  assert (Ha : apply_update dep (get_json req) s = Raise TypeError).
  { unfold apply_update, assign_if_present, bind.
    destruct (dep =? dependencia s)%string eqn:Hd.
    - rewrite (contains_scalar _ _ Hs). reflexivity.
    - destruct Hrole as [Hd' | Hdest].
      + apply String.eqb_neq in Hd. contradiction.
      + rewrite Hdest. simpl. rewrite String.eqb_refl.
        rewrite (contains_scalar _ _ Hs). reflexivity. }
  rewrite Ha. reflexivity.
Qed.

Lemma update_with_scalar_payload_witness :
  @update_solicitud stable_store sample (mkRequest diac PNone) 1
  = ((MessageError "Error al actualizar la tarea" TypeError, 400), sample).
Proof.
  apply (@update_with_scalar_payload stable_store sample (mkRequest diac PNone)
           1 row1 "DIAC").
  - reflexivity.
  - reflexivity.
  - right. reflexivity.
  - reflexivity.
Defined.

(** ** Creation: missing keys, what is stored, who sees it *)

Lemma create_accepted `{Store} t req utcnow dep resp t' :
  resolve (session req) = Some dep ->
  create_solicitud t req utcnow = (resp, t') ->
  code resp = 201 ->
  exists r, new_solicitud dep (get_json req) (next_id t) utcnow = Ok r /\
            t' = t ++ [r].
Proof.
  intros Hr. unfold create_solicitud. rewrite Hr.
  destruct (new_solicitud dep (get_json req) (next_id t) utcnow) as [r|e].
  - destruct (commit t (t ++ [r])); intros [= <- <-] Hcode;
      [|discriminate Hcode].
    exists r. auto.
  - intros [= <- <-] Hcode. discriminate Hcode.
Qed.

(** X8. A dict payload that lacks a required key is answered 400 with the
    [KeyError] of the first key missing in the order cedula, nombre, tipo,
    descripcion, departamento_destino, and nothing is stored. *)
Theorem create_reports_first_missing_key `{Store} t req utcnow dep d k :
  resolve (session req) = Some dep ->
  get_json req = PDict d ->
  find (missing d) required_keys = Some k ->
  create_solicitud t req utcnow =
    ((MessageError "Error al crear la tarea" (KeyError k), 400), t).
Proof.
  intros Hr Hj Hf. unfold create_solicitud. rewrite Hr, Hj.
  assert (Hn : new_solicitud dep (PDict d) (next_id t) utcnow
               = Raise (KeyError k)).
  { unfold new_solicitud, bind, getitem.
    unfold required_keys, find, missing in Hf.
    destruct (dict_lookup "cedula" d); [|congruence].
    destruct (dict_lookup "nombre" d); [|congruence].
    destruct (dict_lookup "tipo" d); [|congruence].
    destruct (dict_lookup "descripcion" d); [|congruence].
    destruct (dict_lookup "departamento_destino" d); [|congruence].
    discriminate Hf. }
  rewrite Hn. reflexivity.
Qed.

Lemma create_reports_first_missing_key_witness :
  @create_solicitud stable_store sample incomplete_payload 3000 =
    ((MessageError "Error al crear la tarea" (KeyError "nombre"), 400), sample).
Proof.
  apply (@create_reports_first_missing_key stable_store sample
           incomplete_payload 3000 "DTISC"
           [ ("cedula", PStr "V-5"); ("tipo", PStr "Soporte");
             ("departamento_destino", PStr "DIAC") ]).
  - reflexivity.
  - reflexivity.
  - reflexivity.
Defined.

(** X10. A created request is listed at once to both ends: after a 201,
    the table is the old one with one record appended, and the listing of
    any caller whose department is the creator's, or is the record's
    [departamento_destino], holds that record's dict. *)
Theorem created_request_is_listed `{Store} t req utcnow dep resp t' :
  resolve (session req) = Some dep ->
  create_solicitud t req utcnow = (resp, t') ->
  code resp = 201 ->
  exists r, t' = t ++ [r] /\
    forall req2 d2,
      resolve (session req2) = Some d2 ->
      d2 = dep \/ departamento_destino r = PStr d2 ->
      exists listing,
        get_solicitudes t' req2 = ((Listing listing, 200), t') /\
        In (to_dict r) listing.
Proof.
  intros Hr Hc Hcode.
  destruct (create_accepted t req utcnow dep resp t' Hr Hc Hcode)
    as (r & Hn & ->).
  exists r. split; [reflexivity|].
  intros req2 d2 Hr2 Hrole. unfold get_solicitudes. rewrite Hr2.
  eexists. split; [reflexivity|].
  apply in_map, solicitudes_of_In. split.
  - apply in_or_app. right. left. reflexivity.
  - apply visible_iff.
    destruct (new_solicitud_stamps _ _ _ _ _ Hn) as (_ & Hd & _).
    destruct Hrole as [-> | Hdest]; [left; auto | right; exact Hdest].
Qed.

Lemma created_request_is_listed_witness :
  exists r,
    snd (@create_solicitud stable_store sample creation_payload 3000)
      = sample ++ [r] /\
    exists listing,
      @get_solicitudes stable_store
        (snd (@create_solicitud stable_store sample creation_payload 3000))
        (mkRequest diac PNone)
      = ((Listing listing, 200),
         snd (@create_solicitud stable_store sample creation_payload 3000)) /\
      In (to_dict r) listing.
Proof.
  destruct (@created_request_is_listed stable_store sample creation_payload
              3000 "DTISC"
              (fst (@create_solicitud stable_store sample creation_payload 3000))
              (snd (@create_solicitud stable_store sample creation_payload 3000)))
    as (r & Happ & Hlist).
  - reflexivity.
  - apply surjective_pairing.
  - reflexivity.
  - exists r. split; [exact Happ|].
    apply (Hlist (mkRequest diac PNone) "DIAC"); [reflexivity|].
    right.
    apply app_inv_head in Happ. injection Happ as <-. reflexivity.
Defined.

(** ** Deletion *)

Lemma get_remove i t : get i (remove i t) = None.
Proof.
  unfold get, remove. induction t as [|a t IH]; simpl; [reflexivity|].
  destruct (id a =? i) eqn:Ha; simpl; [exact IH|].
  rewrite Ha. exact IH.
Qed.

Lemma get_remove_other i j t : j <> i -> get j (remove i t) = get j t.
Proof.
  unfold get, remove. intros Hj.
  induction t as [|a t IH]; simpl; [reflexivity|].
  destruct (id a =? i) eqn:Ha; simpl.
  - apply Z.eqb_eq in Ha.
    assert (Haj : (id a =? j) = false) by (apply Z.eqb_neq; congruence).
    rewrite Haj. exact IH.
  - destruct (id a =? j); [reflexivity | exact IH].
Qed.

Lemma delete_cases `{Store} t req i resp t' :
  delete_solicitud t req i = (resp, t') ->
  (get i t = None /\ t' = t /\ code resp = 404) \/
  (get i t <> None /\ t' = t /\ code resp = 400) \/
  (get i t <> None /\ t' = remove i t /\ code resp = 200 /\
   commit t (remove i t) = true).
Proof.
  unfold delete_solicitud. destruct (get i t) as [s|] eqn:Hg.
  - rewrite (get_id i t s Hg).
    destruct (commit t (remove i t)); intros [= <- <-].
    + right. right. repeat split; auto; discriminate.
    + right. left. repeat split; auto; discriminate.
  - intros [= <- <-]. left. auto.
Qed.

(** X11. A delete answered 200 removes the record and only it: the id no
    longer finds a record, every other id finds what it found, and the rows
    left are the old rows in their order.  Session and payload play no part:
    the same holds for any request. *)
Theorem delete_removes_the_record `{Store} t req i resp t' j :
  delete_solicitud t req i = (resp, t') ->
  code resp = 200 ->
  j <> i ->
  get i t' = None /\ get j t' = get j t /\
  t' = filter (fun s => negb (id s =? i)) t.
Proof.
  intros Hd Hcode Hj.
  destruct (delete_cases t req i resp t' Hd)
    as [(_ & _ & Hc) | [(_ & _ & Hc) | (_ & -> & _)]].
  - rewrite Hcode in Hc. discriminate.
  - rewrite Hcode in Hc. discriminate.
  - split; [apply get_remove|]. split; [apply get_remove_other, Hj|].
    reflexivity.
Qed.

Lemma delete_removes_the_record_witness :
  get 2 (snd (@delete_solicitud stable_store sample (anonymous PNone) 2))
    = None /\
  get 3 (snd (@delete_solicitud stable_store sample (anonymous PNone) 2))
    = Some row3.
Proof.
  destruct (@delete_removes_the_record stable_store sample (anonymous PNone) 2
              (fst (@delete_solicitud stable_store sample (anonymous PNone) 2))
              (snd (@delete_solicitud stable_store sample (anonymous PNone) 2))
              3) as (Hgone & Hkept & _).
  - apply surjective_pairing.
  - reflexivity.
  - discriminate.
  - split; [exact Hgone | rewrite Hkept; reflexivity].
Defined.



(** ** Export: the body, the selection *)

(** X13. A body that is not a JSON object is not handled by
    [export_pdf]: [data.get] raises [AttributeError], nothing catches it, and
    the request ends as a server error instead of a report. *)
Theorem export_needs_a_dict `{Store} `{Typesetter} t req now :
  is_dict (get_json req) = false ->
  export_pdf t req now = ((Unhandled AttributeError, 500), t).
Proof.
  intros Hd. unfold export_pdf, select, get_default, bind.
  destruct (get_json req); try reflexivity. discriminate Hd.
Qed.

Lemma export_needs_a_dict_witness :
  @export_pdf stable_store line_count_typesetter sample
    (mkRequest dtisc (PList [PInt 1; PInt 2])) 5000
  = ((Unhandled AttributeError, 500), sample).
Proof.
  apply (@export_needs_a_dict stable_store line_count_typesetter sample
           (mkRequest dtisc (PList [PInt 1; PInt 2])) 5000).
  reflexivity.
Defined.

(** ** The report: headers, pages, cursor *)

Lemma headers_emit d st : headers (emit d st) = headers st ++ draw_header d.
Proof.
  unfold headers. rewrite events_emit, flat_map_app. simpl.
  rewrite app_nil_r. reflexivity.
Qed.

Lemma headers_down n st : headers (down n st) = headers st.
Proof. reflexivity. Qed.

Lemma headers_setFont name size st : headers (setFont name size st) = headers st.
Proof. unfold setFont. rewrite headers_emit. apply app_nil_r. Qed.

Lemma headers_drawString x text st :
  headers (drawString x text st) =
  headers st ++ draw_header (DrawString 0 0 text).
Proof. unfold drawString. rewrite headers_emit. reflexivity. Qed.

Lemma headers_paragraph `{Typesetter} text pad st :
  headers (paragraph text pad st) = headers st.
Proof.
  unfold paragraph. rewrite headers_down, headers_emit. apply app_nil_r.
Qed.

Lemma headers_showPage st : headers (showPage st) = headers st.
Proof.
  unfold headers. rewrite events_showPage, flat_map_app. simpl.
  apply app_nil_r.
Qed.

(** A labelled line is a header only under the label of headers. *)
Lemma labelled_line_header s v :
  (s =? "Solicitud ID: ")%string = false ->
  draw_header (DrawString 0 0 [Lit s; Fmt v]) = [].
Proof. intros Hs. simpl. destruct v; try reflexivity. rewrite Hs. reflexivity. Qed.

Lemma headers_draw_solicitud `{Typesetter} r st :
  headers (draw_solicitud r st) = headers st ++ [id r].
Proof.
  unfold draw_solicitud. cbv zeta. cbn [fold_left details].
  destruct (truthy (que_hizo r));
    repeat first [ rewrite headers_down | rewrite headers_setFont
                 | rewrite headers_paragraph | rewrite headers_drawString
                 | rewrite headers_emit ];
    rewrite !labelled_line_header by reflexivity;
    cbn [draw_header header]; rewrite ?String.eqb_refl, ?app_nil_r;
    reflexivity.
Qed.

Lemma headers_new_page_if_low st : headers (new_page_if_low st) = headers st.
Proof.
  unfold headers. rewrite new_page_if_low_events, flat_map_app.
  destruct (y_position st <? 100); simpl; apply app_nil_r.
Qed.

Lemma headers_render_all `{Typesetter} l st :
  headers (render_all st l) = headers st ++ map id l.
Proof.
  revert st. induction l as [|r l IH]; intros st.
  - simpl. symmetry. apply app_nil_r.
  - change (render_all st (r :: l))
      with (render_all (draw_solicitud r (new_page_if_low st)) l).
    rewrite IH, headers_draw_solicitud, headers_new_page_if_low, <- app_assoc.
    reflexivity.
Qed.

Lemma flat_map_header_Draw p :
  flat_map event_header (map Draw p) = flat_map draw_header p.
Proof.
  induction p as [|d p IH]; simpl; [reflexivity|]. rewrite IH. reflexivity.
Qed.

(** Saving keeps the headers drawn, page breaks apart. *)
Lemma doc_headers_save st : doc_headers (save (canvas st)) = headers st.
Proof.
  unfold doc_headers, headers, events, save.
  assert (Hs : forall ps,
             flat_map event_header
               (flat_map (fun p => map Draw p ++ [Break]) ps)
             = flat_map draw_header (List.concat ps)).
  { induction ps as [|p ps IH]; simpl; [reflexivity|].
    rewrite !flat_map_app, IH, flat_map_header_Draw. simpl.
    rewrite app_nil_r. reflexivity. }
  rewrite flat_map_app, Hs, flat_map_header_Draw.
  destruct (current (canvas st)) eqn:Hc.
  - simpl. symmetry. apply app_nil_r.
  - rewrite concat_app, flat_map_app. simpl. rewrite app_nil_r.
    reflexivity.
Qed.

(** X15. The report names every selected record exactly once and in the
    order of the selection: reading the "Solicitud ID" headers of the
    document page after page gives the ids of the records as they were
    passed. *)
Theorem report_headers_follow_selection `{Typesetter} now solicitudes :
  doc_headers (report now solicitudes) = map id solicitudes.
Proof.
  unfold report. destruct solicitudes as [|r l].
  - reflexivity.
  - rewrite doc_headers_save, headers_render_all. reflexivity.
Qed.

(** The cursor through the steps of a block. *)
Lemma y_paragraph `{Typesetter} text pad st :
  y_position (paragraph text pad st) =
  y_position st - (wrapOn text (width - 2 * margin - 20) height + pad).
Proof. reflexivity. Qed.

Lemma y_draw_solicitud `{Typesetter} r st :
  y_position (draw_solicitud r st) = y_position st - block_height r.
Proof.
  unfold draw_solicitud, block_height. cbv zeta. cbn [fold_left details].
  destruct (truthy (que_hizo r));
    repeat first [ rewrite y_paragraph
                 | progress cbn [y_position down setFont drawString emit] ];
    lia.
Qed.

(** X16. The cursor moves by what was drawn: one turn of the loop leaves
    it at the place the block started (the old cursor, or 712 after a page
    break) less 195 units of fixed lines and spacing, less the measured
    height of the description, less 35 and the measured height of the
    resolution when there is one and 20 when there is none. *)
Theorem cursor_advances_by_block_height `{Typesetter} st r :
  y_position (render_solicitud st r) =
  (if y_position st <? 100 then 712 else y_position st) - block_height r.
Proof.
  unfold render_solicitud. rewrite y_draw_solicitud, new_page_if_low_y.
  reflexivity.
Qed.

Lemma draws_pages ops st st' :
  draws ops st st' ->
  pages_so_far st' =
  shown (canvas st) ++ [current (canvas st) ++ ops].
Proof. intros [Hs Hc]. unfold pages_so_far. rewrite Hs, Hc. reflexivity. Qed.

(** One turn of the loop, page by page: the pages before it, the last of
    them or a fresh continuation page receiving the block. *)
Lemma render_solicitud_pages `{Typesetter} st r :
  exists ops, ops <> [] /\
    pages_so_far (render_solicitud st r) =
    if y_position st <? 100
    then pages_so_far st
         ++ [SetFont "Helvetica-Bold" 18
             :: DrawString margin (height - 50) continuation :: ops]
    else shown (canvas st) ++ [current (canvas st) ++ ops].
Proof.
  unfold render_solicitud.
  destruct (draw_solicitud_draws r (new_page_if_low st)) as [ops Hd].
  exists (SetFont "Helvetica-Bold" 12
          :: DrawString margin (y_position (new_page_if_low st)) (header r)
          :: ops).
  split; [|rewrite (draws_pages _ _ _ Hd)].
  - discriminate.
  - unfold new_page_if_low, pages_so_far.
    destruct (y_position st <? 100); reflexivity.
Qed.

Lemma report_is_pages_so_far `{Typesetter} now r l :
  report now (r :: l) = pages_so_far (render_all (report_head now) (r :: l)).
Proof. apply report_pages. Qed.

Lemma Forall_last_app {A} (P : list A -> Prop) ps p ops :
  (forall q, P q -> P (q ++ ops)) ->
  Forall P (tl (ps ++ [p])) -> Forall P (tl (ps ++ [p ++ ops])).
Proof.
  intros Hext. destruct ps as [|p0 ps]; simpl; [constructor|].
  rewrite !Forall_app. intros [Hps Hp]. split; [exact Hps|].
  constructor; [|constructor]. apply Hext. inversion Hp. assumption.
Qed.

Lemma continued_app p ops : continued p -> continued (p ++ ops).
Proof. intros [rest ->]. exists (rest ++ ops). reflexivity. Qed.

Lemma render_all_continued `{Typesetter} l st :
  Forall continued (tl (pages_so_far st)) ->
  Forall continued (tl (pages_so_far (render_all st l))).
Proof.
  revert st. induction l as [|r l IH]; intros st Hst; [exact Hst|].
  change (render_all st (r :: l)) with (render_all (render_solicitud st r) l).
  apply IH. destruct (render_solicitud_pages st r) as (ops & _ & Hp).
  rewrite Hp. destruct (y_position st <? 100).
  - unfold pages_so_far in *.
    destruct (shown (canvas st)) as [|p0 ps]; simpl in *.
    + constructor; [|constructor]. eexists. reflexivity.
    + rewrite Forall_app. split; [exact Hst|].
      constructor; [|constructor]. eexists. reflexivity.
  - apply Forall_last_app; [intros q; apply continued_app | exact Hst].
Qed.

(** X17. Every page after the first opens with the continuation title:
    in the document of any selection, each page but the first begins with the
    bold 18-point font and the line "Reporte de Solicitudes (Continuación)"
    at the top of the page. *)
Theorem later_pages_open_with_continuation `{Typesetter} now solicitudes :
  Forall continued (tl (report now solicitudes)).
Proof.
  destruct solicitudes as [|r l].
  - constructor.
  - rewrite report_is_pages_so_far. apply render_all_continued. constructor.
Qed.

Lemma render_all_no_blank `{Typesetter} l st :
  no_blank_page (pages_so_far st) ->
  no_blank_page (pages_so_far (render_all st l)) /\
  (List.length (pages_so_far (render_all st l))
   <= List.length (pages_so_far st) + List.length l)%nat.
Proof.
  unfold no_blank_page.
  revert st. induction l as [|r l IH]; intros st Hst.
  - split; [exact Hst | simpl; lia].
  - change (render_all st (r :: l)) with (render_all (render_solicitud st r) l).
    destruct (render_solicitud_pages st r) as (ops & Hops & Hp).
    assert (Hstep : Forall (fun p => p <> []) (pages_so_far (render_solicitud st r))
                    /\ (List.length (pages_so_far (render_solicitud st r))
                        <= S (List.length (pages_so_far st)))%nat).
    { rewrite Hp. unfold pages_so_far in *.
      destruct (y_position st <? 100).
      - split.
        + rewrite Forall_app. split; [exact Hst|].
          constructor; [discriminate | constructor].
        + rewrite !List.length_app. simpl. lia.
      - apply Forall_app in Hst. destruct Hst as [Hs _]. split.
        + rewrite Forall_app. split; [exact Hs|].
          constructor; [|constructor].
          destruct (current (canvas st)); [exact Hops | discriminate].
        + rewrite !List.length_app. simpl. lia. }
    destruct Hstep as [Hnb Hlen].
    destruct (IH _ Hnb) as [Hnb' Hlen']. split; [exact Hnb'|].
    simpl List.length. lia.
Qed.

(** X18. The report has no blank page and no more pages than records plus
    one: whatever the selection and the measured heights, the document has at
    least one page, at most one page per record beyond the first page, and
    something is drawn on each. *)
Theorem report_has_no_blank_page `{Typesetter} now solicitudes :
  no_blank_page (report now solicitudes) /\
  (1 <= List.length (report now solicitudes)
     <= 1 + List.length solicitudes)%nat.
Proof.
  destruct solicitudes as [|r l].
  - split; [|simpl; lia].
    constructor; [discriminate | constructor].
  - rewrite report_is_pages_so_far.
    destruct (render_all_no_blank (r :: l) (report_head now)) as [Hnb Hlen].
    + constructor; [discriminate | constructor].
    + split; [exact Hnb|]. split.
      * unfold pages_so_far. rewrite List.length_app. simpl. lia.
      * simpl in Hlen |- *. lia.
Qed.

(** ** Accounts: login, the session, the default accounts *)

Lemma toy_check_generated salt password :
  toy_check (toy_generate salt password) (PStr password) = Ok true.
Proof. simpl. rewrite String.eqb_refl. reflexivity. Qed.

Lemma none_is_stored (users : list User.t) (v : pyval) u :
  @Ok (option User.t) None = Ok (Some u) -> In u users.
Proof. discriminate. Qed.

(** Accounts over the readable hash; a username that is not a str finds
    nobody. *)
Definition toy_accounts : Accounts :=
  {| generate_password_hash := toy_generate;
     check_password_hash := toy_check;
     check_generated := toy_check_generated;
     first_by_other := fun _ _ => Ok None;
     first_by_other_stored := none_is_stored;
     next_user_id := fun users => max_user_id users + 1 |}.

Lemma filter_by_username_stored `{Accounts} users v u :
  filter_by_username users v = Ok (Some u) -> In u users.
Proof.
  unfold filter_by_username, first_by_username.
  destruct v; try apply first_by_other_stored.
  intros [= Hf]. apply find_some in Hf. apply Hf.
Qed.

(** Every way [login] can end. *)
Lemma login_cases `{Accounts} users s data resp s' :
  login users s data = (resp, s') ->
  (s' = s /\ (auth_code resp = 401 \/ auth_code resp = 500)) \/
  (exists u pw,
     In u users /\
     get_default data "password" PNone = Ok pw /\
     check_password_hash (User.password_hash u) pw = Ok true /\
     resp = (LoginOk "Login exitoso" (User.departamento u) (User.username u),
             200) /\
     s' = Some (mkLogin (User.id u) (User.departamento u) (User.username u))).
Proof.
  unfold login, authenticate, bind, check_password.
  destruct (get_default data "username" PNone) as [name|e];
    [|intros [= <- <-]; left; simpl; auto].
  destruct (get_default data "password" PNone) as [pw|e];
    [|intros [= <- <-]; left; simpl; auto].
  destruct (filter_by_username users name) as [[u|]|e] eqn:Hf;
    [|intros [= <- <-]; left; simpl; auto..].
  destruct (check_password_hash (User.password_hash u) pw) as [[|]|e] eqn:Hc;
    intros [= <- <-]; [|left; simpl; auto..].
  right. exists u, pw. split; [apply (filter_by_username_stored _ _ _ Hf)|].
  auto.
Qed.

(** X19. [login] opens a session only for a stored account whose stored
    hash accepted the password that was sent: when the answer is 200, some
    account of the table passed [check_password_hash] on the payload's
    password, and the session holds that account's id, department and
    username and nothing taken from the payload. *)
Theorem login_requires_accepted_password `{Accounts} users s data resp s' :
  login users s data = (resp, s') ->
  auth_code resp = 200 ->
  exists u pw,
    In u users /\
    get_default data "password" PNone = Ok pw /\
    check_password_hash (User.password_hash u) pw = Ok true /\
    resp = (LoginOk "Login exitoso" (User.departamento u) (User.username u),
            200) /\
    s' = Some (mkLogin (User.id u) (User.departamento u) (User.username u)).
Proof.
  intros Hl Hcode.
  destruct (login_cases users s data resp s' Hl) as [[_ Hc] | Hok].
  - rewrite Hcode in Hc. destruct Hc; discriminate.
  - exact Hok.
Qed.

Lemma login_requires_accepted_password_witness :
  snd (@login toy_accounts [ana] None ana_login)
  = Some (mkLogin 7 "DIAC" "ana").
Proof.
  destruct (@login_requires_accepted_password toy_accounts [ana] None ana_login
              (fst (@login toy_accounts [ana] None ana_login))
              (snd (@login toy_accounts [ana] None ana_login)))
    as (u & pw & Hin & _ & _ & _ & Hs).
  - apply surjective_pairing.
  - reflexivity.
  - destruct Hin as [<- | []]. exact Hs.
Defined.

(** X21. The session through its life: after a login answered 200 with a
    department that is not empty, [get_current_user] answers 200 with the
    department and username of the login and the request handlers resolve
    that department; after [logout], [get_current_user] answers 401 and no
    department resolves. *)
Theorem session_lifecycle `{Accounts} users s data message dep name s' :
  login users s data = ((LoginOk message dep name, 200), s') ->
  dep <> "" ->
  resolve s' = Some dep /\
  get_current_user s' = ((CurrentUser dep name, 200), s') /\
  resolve (snd (logout s')) = None /\
  get_current_user (snd (logout s')) =
    ((AuthMessage "No autorizado", 401), None).
Proof.
  intros Hl Hdep.
  destruct (login_cases users s data _ s' Hl)
    as [[_ [Hc | Hc]] | (u & pw & _ & _ & _ & Hresp & ->)];
    [discriminate Hc..|].
  injection Hresp as Hm Hd Hn. subst message dep name.
  assert (Hr : resolve (Some (mkLogin (User.id u) (User.departamento u)
                                (User.username u)))
               = Some (User.departamento u)).
  { unfold resolve. simpl. apply String.eqb_neq in Hdep. rewrite Hdep.
    reflexivity. }
  split; [exact Hr|]. split; [|split; reflexivity].
  unfold get_current_user. rewrite Hr. reflexivity.
Qed.

Lemma session_lifecycle_witness :
  get_current_user (Some (mkLogin 7 "DIAC" "ana"))
  = ((CurrentUser "DIAC" "ana", 200), Some (mkLogin 7 "DIAC" "ana")).
Proof.
  apply (@session_lifecycle toy_accounts [ana] None ana_login "Login exitoso"
           "DIAC" "ana" (Some (mkLogin 7 "DIAC" "ana"))).
  - reflexivity.
  - discriminate.
Defined.

Lemma first_by_username_app users more u :
  first_by_username users u <> None ->
  first_by_username (users ++ more) u = first_by_username users u.
Proof.
  unfold first_by_username. induction users as [|x users IH]; simpl.
  - intros Hn. exfalso. apply Hn. reflexivity.
  - destruct (User.username x =? u)%string; [reflexivity | exact IH].
Qed.

Lemma first_by_username_last users x :
  first_by_username (users ++ [x]) (User.username x) <> None.
Proof.
  unfold first_by_username. induction users as [|y users IH]; simpl.
  - rewrite String.eqb_refl. discriminate.
  - destruct (User.username y =? User.username x)%string;
      [discriminate | exact IH].
Qed.

(** One turn of the loop only appends, and leaves the account found. *)
Lemma seed_one_spec `{Accounts} urandom users drawn dep :
  exists more drawn',
    seed_one urandom (users, drawn) dep = (users ++ more, drawn') /\
    first_by_username (users ++ more) (lower dep) <> None.
Proof.
  unfold seed_one.
  destruct (first_by_username users (lower dep)) eqn:Hf.
  - exists [], drawn. rewrite app_nil_r, Hf. split; [reflexivity | discriminate].
  - eexists. eexists. split; [reflexivity|].
    apply (first_by_username_last users
             (set_password (urandom drawn) "fundacite"
                (User.mk (next_user_id users) (lower dep) "" dep))).
Qed.

Lemma seed_fold_spec `{Accounts} urandom deps users drawn :
  exists more drawn',
    fold_left (seed_one urandom) deps (users, drawn) = (users ++ more, drawn') /\
    forall dep, In dep deps ->
                first_by_username (users ++ more) (lower dep) <> None.
Proof.
  revert users drawn. induction deps as [|dep deps IH]; intros users drawn.
  - exists [], drawn. rewrite app_nil_r. split; [reflexivity | intros ? []].
  - destruct (seed_one_spec urandom users drawn dep) as (m1 & n1 & H1 & Hf1).
    destruct (IH (users ++ m1) n1) as (m2 & n2 & H2 & Hf2).
    exists (m1 ++ m2), n2.
    change (fold_left (seed_one urandom) (dep :: deps) (users, drawn))
      with (fold_left (seed_one urandom) deps
              (seed_one urandom (users, drawn) dep)).
    rewrite H1, H2, app_assoc.
    split; [reflexivity|].
    intros d [<- | Hin]; [|apply Hf2, Hin].
    rewrite first_by_username_app; exact Hf1.
Qed.

Lemma seed_fold_noop `{Accounts} urandom deps users drawn :
  (forall dep, In dep deps -> first_by_username users (lower dep) <> None) ->
  fold_left (seed_one urandom) deps (users, drawn) = (users, drawn).
Proof.
  induction deps as [|dep deps IH]; intros Hall; [reflexivity|].
  simpl. destruct (first_by_username users (lower dep)) eqn:Hf.
  - apply IH. intros d Hd. apply Hall. right. exact Hd.
  - exfalso. apply (Hall dep); [left; reflexivity | exact Hf].
Qed.

(** X22. Seeding the default accounts only adds and is idempotent: the
    accounts present before the start-up loop are kept, in place, ahead of
    the ones it adds, and running the loop again on its result adds nothing
    and draws no salt, whatever randomness it is given. *)
Theorem seed_is_idempotent `{Accounts} urandom urandom' st :
  (exists more, fst (seed urandom st) = fst st ++ more) /\
  seed urandom' (seed urandom st) = seed urandom st.
Proof.
  destruct st as [users drawn]. unfold seed.
  destruct (seed_fold_spec urandom DEPARTAMENTOS users drawn)
    as (more & drawn' & Hs & Hfound).
  rewrite Hs. split.
  - exists more. reflexivity.
  - apply seed_fold_noop. exact Hfound.
Qed.

(** X23. The default accounts of a fresh database log in: after the
    start-up loop on an empty table, for each department of [DEPARTAMENTOS]
    the login with the department's name in lower case and the password
    "fundacite" is answered 200 with that department, and opens a session for
    it. *)
Theorem default_accounts_log_in `{A : Accounts} urandom s dep :
  In dep DEPARTAMENTOS ->
  exists uid,
    login (fst (seed urandom ([], 0%nat))) s
      (PDict [("username", PStr (lower dep)); ("password", PStr "fundacite")])
    = ((LoginOk "Login exitoso" dep (lower dep), 200),
       Some (mkLogin uid dep (lower dep))).
Proof.
  intros Hin. unfold DEPARTAMENTOS in Hin. simpl in Hin.
  destruct A as [generate check Hcheck other Hother next].
  repeat (destruct Hin as [<- | Hin];
          [vm_compute; rewrite Hcheck; eexists; reflexivity|]).
  destruct Hin.
Qed.

Lemma default_accounts_log_in_witness :
  exists uid,
    @login toy_accounts
      (fst (@seed toy_accounts (fun n => Z.of_nat n) ([], 0%nat))) None
      (PDict [("username", PStr "dtisc"); ("password", PStr "fundacite")])
    = ((LoginOk "Login exitoso" "DTISC" "dtisc", 200),
       Some (mkLogin uid "DTISC" "dtisc")).
Proof.
  apply (@default_accounts_log_in toy_accounts (fun n => Z.of_nat n) None
           "DTISC").
  left. reflexivity.
Defined.

(** The seven accounts of a fresh database, and an account that was there
    before being left alone. *)
Example seed_fresh_usernames :
  map User.username
    (fst (@seed toy_accounts (fun n => Z.of_nat n) ([], 0%nat)))
  = ["dtisc"; "diac"; "dga"; "echalba"; "pre"; "die"; "dccip"].
Proof. reflexivity. Qed.

Example seed_keeps_existing_account :
  let old := User.mk 1 "diac" "x-old-hash" "DIAC" in
  exists more,
    fst (@seed toy_accounts (fun n => Z.of_nat n) ([old], 0%nat))
      = old :: more /\
    List.length more = 6%nat.
Proof. eexists. split; reflexivity. Qed.

(** * The routes and the database *)

(** ** Order of the listing on SQLite *)

Lemma dated_insert_row f a l :
  dated f (insert_row true a l) =
  (if fecha_creacion a =? f then [a] else []) ++ dated f l.
Proof.
  unfold dated. induction l as [|b l IH].
  { simpl. destruct (fecha_creacion a =? f); reflexivity. }
  simpl insert_row. unfold goes_before.
  destruct (fecha_creacion b <=? fecha_creacion a) eqn:Hba.
  - simpl. destruct (fecha_creacion a =? f); reflexivity.
  - apply Z.leb_gt in Hba. simpl. rewrite IH.
    destruct (fecha_creacion a =? f) eqn:Ha;
      destruct (fecha_creacion b =? f) eqn:Hb; try reflexivity.
    apply Z.eqb_eq in Ha, Hb. lia.
Qed.

(** Sorting by insertion ahead of equal dates keeps, for every date, the
    rows of that date in the order they had. *)
Lemma dated_sort_rows f l : dated f (sort_rows true l) = dated f l.
Proof.
  induction l as [|a l IH]; [reflexivity|].
  simpl sort_rows. rewrite dated_insert_row, IH. unfold dated. simpl.
  destruct (fecha_creacion a =? f); reflexivity.
Qed.

Section Sqlite.

Variable in_ : pyval -> result (Z -> bool).
Variable commit_ : table -> table -> bool.
Variable next_id_ : table -> Z.

(** The store on SQLite: its sorter, and whatever the database does for
    [in_], for a commit and for a new primary key. *)
Definition sqlite_store : Store :=
  {| order_by_fecha_desc := sqlite_order_by;
     order_by_permutation := sort_rows_permutation true;
     order_by_sorted := sort_rows_sorted true;
     id_in := in_;
     commit := commit_;
     next_id := next_id_ |}.

End Sqlite.

(** C7. On the store as SQLite orders it, the listing of a caller whose
    session resolves to [dep] holds the visible records, each as often as the
    table has it, ordered by [fecha_creacion] descending, and for every date
    the records of that date come in the order in which the table has them,
    which is the order of insertion. *)
Theorem listing_is_newest_first_and_stable in_ commit_ next_id_ t req dep :
  resolve (session req) = Some dep ->
  exists rows,
    @get_solicitudes (sqlite_store in_ commit_ next_id_) t req
      = ((Listing (map to_dict rows), 200), t) /\
    Permutation (filter (visible dep) t) rows /\
    StronglySorted newer_first rows /\
    forall f, dated f rows = dated f (filter (visible dep) t).
Proof.
  intros Hr. unfold get_solicitudes. rewrite Hr.
  exists (sqlite_order_by (filter (visible dep) t)).
  split; [reflexivity|]. split; [|split].
  - apply sort_rows_permutation.
  - apply sort_rows_sorted.
  - intros f. apply dated_sort_rows.
Qed.

Lemma listing_is_newest_first_and_stable_witness :
  exists rows,
    @get_solicitudes (sqlite_store in_int_list (fun _ _ => true) max_id)
      three_for_dga (mkRequest dga PNone)
      = ((Listing (map to_dict rows), 200), three_for_dga) /\
    dated 1000 rows = [row2; row5] /\ dated 2000 rows = [row3].
Proof.
  destruct (listing_is_newest_first_and_stable in_int_list (fun _ _ => true)
              max_id three_for_dga (mkRequest dga PNone) "DGA")
    as (rows & Hl & _ & _ & Hties).
  - reflexivity.
  - exists rows. split; [exact Hl|].
    split; rewrite Hties; reflexivity.
Defined.

Example listing_of_three_for_dga :
  @solicitudes_of (sqlite_store in_int_list (fun _ _ => true) max_id) "DGA"
    three_for_dga = [row3; row2; row5].
Proof. reflexivity. Qed.

(** ** Requests without a resolvable department, as they arrive *)

(** C6, as stated, fails.  Without a session, [DELETE] deletes the record
    and answers 200; [PUT] on an id that finds no record answers 404, the
    lookup coming before the session test; [PUT] with a body that is not
    JSON is answered 415 by the parsing, which comes first of all; and [PUT]
    on an id SQLite cannot bind ends in an exception nothing catches. *)
Lemma anonymous_requests_not_all_unauthorized :
  resolve None = None /\
  @route_delete stable_store sample (mkHttp None NotJson) 1
    = ((Message "Tarea eliminada con éxito", 200), [row2; row3]) /\
  @route_update stable_store sample (mkHttp None (JsonBody (PDict []))) 99
    = ((ErrorPage, 404), sample) /\
  @route_update stable_store sample (mkHttp None NotJson) 1
    = ((ErrorPage, 415), sample) /\
  @route_update stable_store sample (mkHttp None (JsonBody (PDict [])))
    9223372036854775808
    = ((Unhandled OverflowError, 500), sample).
Proof. repeat split. Qed.

(** C6, amended.  Without a resolvable session department the listing is
    answered 401.  Creation and update parse the body first: a body that is
    not JSON is answered 400 or 415 whatever the session.  With a JSON body,
    creation is answered 401; update looks the id up before it tests the
    session, so an id above what SQLite binds ends in an unhandled
    [OverflowError], an id that finds no record is answered 404, and an id
    that finds a record is answered 401.  The table is left as it was in
    every one of these cases. *)
Theorem anonymous_requests_are_rejected `{Store} t h utcnow i :
  resolve (cookie h) = None ->
  route_list t h = (unauthorized, t) /\
  route_create t h utcnow =
    (match get_json_or_abort (payload h) with
     | inl _ => unauthorized
     | inr status => (ErrorPage, status)
     end, t) /\
  route_update t h i =
    (match get_json_or_abort (payload h) with
     | inr status => (ErrorPage, status)
     | inl _ =>
         if sqlite_max <? Z.of_N i then (Unhandled OverflowError, 500)
         else match get (Z.of_N i) t with
              | Some _ => unauthorized
              | None => (ErrorPage, 404)
              end
     end, t).
Proof.
  intros Hr.
  unfold route_list, route_create, route_update, get_solicitudes,
    create_solicitud, update_solicitud.
  simpl session. rewrite Hr. split; [reflexivity|].
  destruct (get_json_or_abort (payload h)) as [data | status].
  - split; [reflexivity|].
    destruct (sqlite_max <? Z.of_N i); [reflexivity|].
    destruct (get (Z.of_N i) t); reflexivity.
  - split; reflexivity.
Qed.

(** A logged-out caller who creates, and one whose session holds an empty
    department who updates a stored request. *)
Lemma anonymous_requests_are_rejected_witness :
  @route_create stable_store sample
    (mkHttp None (JsonBody (get_json creation_payload))) 3000
    = (unauthorized, sample) /\
  @route_update stable_store sample
    (mkHttp (Some (mkLogin 9 "" "nadie")) (JsonBody (get_json sender_payload)))
    1 = (unauthorized, sample).
Proof.
  split.
  - apply (@anonymous_requests_are_rejected stable_store sample
             (mkHttp None (JsonBody (get_json creation_payload))) 3000 1%N).
    reflexivity.
  - apply (@anonymous_requests_are_rejected stable_store sample
             (mkHttp (Some (mkLogin 9 "" "nadie"))
                (JsonBody (get_json sender_payload))) 3000 1%N).
    reflexivity.
Defined.

(** ** Update as it arrives: all or nothing *)

(** X2. [PUT /api/solicitudes/<id>] is all or nothing: either it answers
    200 and the store accepted the commit that led to the new table, or the
    table is the one it was given and the answer is 400, 401, 403, 404, 415
    or the 500 of an exception outside the [try]. *)
Theorem update_is_atomic `{Store} t h i resp t' :
  route_update t h i = (resp, t') ->
  (code resp = 200 /\ commit t t' = true) \/
  (t' = t /\ (code resp = 400 \/ code resp = 401 \/ code resp = 403 \/
              code resp = 404 \/ code resp = 415 \/ code resp = 500)).
Proof.
  unfold route_update.
  destruct (payload h) as [data | |]; simpl get_json_or_abort;
    [|intros [= <- <-]; right; simpl; auto 10..].
  destruct (sqlite_max <? Z.of_N i);
    [intros [= <- <-]; right; simpl; auto 10|].
  intros Hu.
  destruct (update_cases _ _ _ _ _ Hu)
    as [[-> Hc] | (s & dep & s' & _ & _ & _ & Hc & -> & Hcode)].
  - right. split; [reflexivity|].
    destruct Hc as [Hc | [Hc | [Hc | Hc]]]; auto 10.
  - left. auto.
Qed.

Lemma update_is_atomic_witness :
  snd (@route_update stable_store sample
         (mkHttp dtisc (JsonBody (get_json clearing_payload))) 1) = sample /\
  code (fst (@route_update stable_store sample
               (mkHttp dtisc (JsonBody (get_json clearing_payload))) 1)) = 400.
Proof.
  destruct (@update_is_atomic stable_store sample
              (mkHttp dtisc (JsonBody (get_json clearing_payload))) 1%N
              (fst (@route_update stable_store sample
                      (mkHttp dtisc (JsonBody (get_json clearing_payload))) 1))
              (snd (@route_update stable_store sample
                      (mkHttp dtisc (JsonBody (get_json clearing_payload))) 1)))
    as [[Hcode _] | [Hsame _]].
  - apply surjective_pairing.
  - discriminate Hcode.
  - split; [exact Hsame | reflexivity].
Defined.

(** ** Login as it arrives *)

(** X20. A login that is not answered 200 leaves the session as it was:
    a body that is not JSON (400 or 415), an unknown username or a refused
    password (401), an exception in the handler (500): none opens a session
    or closes the one the caller has. *)
Theorem failed_login_keeps_session `{Accounts} users h resp s' :
  route_login users h = (resp, s') ->
  auth_code resp <> 200 ->
  s' = cookie h /\
  (auth_code resp = 400 \/ auth_code resp = 401 \/ auth_code resp = 415 \/
   auth_code resp = 500).
Proof.
  unfold route_login.
  destruct (payload h) as [data | |]; simpl get_json_or_abort;
    [|intros [= <- <-] _; simpl; auto 10..].
  intros Hl Hcode.
  destruct (login_cases users (cookie h) data resp s' Hl)
    as [[-> Hc] | (u & pw & _ & _ & _ & -> & _)].
  - split; [reflexivity|]. destruct Hc; auto.
  - exfalso. apply Hcode. reflexivity.
Qed.

Lemma failed_login_keeps_session_witness :
  snd (@route_login toy_accounts [ana]
         (mkHttp dtisc
            (JsonBody (PDict [("username", PStr "ana");
                              ("password", PStr "otra")]))))
  = dtisc /\
  snd (@route_login toy_accounts [ana] (mkHttp dtisc MalformedJson)) = dtisc.
Proof.
  split.
  - apply (@failed_login_keeps_session toy_accounts [ana]
             (mkHttp dtisc
                (JsonBody (PDict [("username", PStr "ana");
                                  ("password", PStr "otra")])))
             (fst (@route_login toy_accounts [ana]
                     (mkHttp dtisc
                        (JsonBody (PDict [("username", PStr "ana");
                                          ("password", PStr "otra")])))))).
    + apply surjective_pairing.
    + discriminate.
  - apply (@failed_login_keeps_session toy_accounts [ana]
             (mkHttp dtisc MalformedJson)
             (fst (@route_login toy_accounts [ana]
                     (mkHttp dtisc MalformedJson)))).
    + apply surjective_pairing.
    + discriminate.
Defined.

(** ** What an accepted write stores *)

(** X3. When the sender's update is answered 200 and the payload is a
    JSON object, the stored record has in [descripcion] the str the payload
    holds under that key, or what it had when the payload lacks the key; and
    the same for [departamento_destino].  Values that are not str are left
    to the store's own conversion. *)
Theorem sender_update_stores_text `{Store} t req i s dep d resp t' :
  get i t = Some s ->
  resolve (session req) = Some dep ->
  dep = dependencia s ->
  get_json req = PDict d ->
  update_solicitud t req i = (resp, t') ->
  code resp = 200 ->
  exists s', get i t' = Some s' /\
    (text_or_absent d "descripcion" = true ->
     descripcion s' = payload_or d "descripcion" (descripcion s)) /\
    (text_or_absent d "departamento_destino" = true ->
     departamento_destino s' =
       payload_or d "departamento_destino" (departamento_destino s)).
Proof.
  intros Hg Hr Hd Hj Hu Hcode.
  destruct (update_accepted t req i s dep resp t' Hg Hr Hu Hcode)
    as (s' & Ha & Hg').
  rewrite Hj, (sender_branch_dict dep d s Hd) in Ha.
  injection Ha as <-. eexists. split; [exact Hg'|].
  split; intros _; reflexivity.
Qed.

Lemma sender_update_stores_text_witness :
  exists s',
    get 1 (snd (@update_solicitud stable_store sample sender_payload 1))
      = Some s' /\
    descripcion s' = PStr "Sin red ni telefono" /\
    departamento_destino s' = PStr "DIAC".
Proof.
  destruct (@sender_update_stores_text stable_store sample sender_payload 1
              row1 "DTISC"
              [ ("descripcion", PStr "Sin red ni telefono");
                ("estado", PStr "Cerrada");
                ("quien_atendio", PStr "dtisc");
                ("que_hizo", PStr "Nada") ]
              (fst (@update_solicitud stable_store sample sender_payload 1))
              (snd (@update_solicitud stable_store sample sender_payload 1)))
    as (s' & Hg & Hdesc & Hdest).
  - reflexivity.
  - reflexivity.
  - reflexivity.
  - reflexivity.
  - apply surjective_pairing.
  - reflexivity.
  - exists s'. split; [exact Hg|]. split.
    + apply Hdesc. reflexivity.
    + apply Hdest. reflexivity.
Defined.

(** X4. When the recipient's update is answered 200 and the payload is a
    JSON object, the stored record has in [status] the str or null the
    payload holds under [estado], or what it had when the payload lacks the
    key; and the same for [quien_atendio] and [que_hizo] under their own
    keys.  A [status] key in the payload is not read; values that are
    neither str nor null are left to the store's own conversion. *)
Theorem recipient_update_stores_text `{Store} t req i s dep d resp t' :
  get i t = Some s ->
  resolve (session req) = Some dep ->
  dep <> dependencia s ->
  departamento_destino s = PStr dep ->
  get_json req = PDict d ->
  update_solicitud t req i = (resp, t') ->
  code resp = 200 ->
  exists s', get i t' = Some s' /\
    (text_null_or_absent d "estado" = true ->
     status s' = payload_or d "estado" (status s)) /\
    (text_null_or_absent d "quien_atendio" = true ->
     quien_atendio s' = payload_or d "quien_atendio" (quien_atendio s)) /\
    (text_null_or_absent d "que_hizo" = true ->
     que_hizo s' = payload_or d "que_hizo" (que_hizo s)).
Proof.
  intros Hg Hr Hd Hdest Hj Hu Hcode.
  destruct (update_accepted t req i s dep resp t' Hg Hr Hu Hcode)
    as (s' & Ha & Hg').
  rewrite Hj, (recipient_branch_dict dep d s Hd Hdest) in Ha.
  injection Ha as <-. eexists. split; [exact Hg'|].
  repeat split.
Qed.

Lemma recipient_update_stores_text_witness :
  exists s',
    get 1 (snd (@update_solicitud stable_store sample answer_payload 1))
      = Some s' /\
    status s' = PStr "Atendida" /\ quien_atendio s' = PNone /\
    que_hizo s' = PStr "Cable cambiado".
Proof.
  destruct (@recipient_update_stores_text stable_store sample answer_payload 1
              row1 "DIAC"
              [ ("status", PStr "Cerrada"); ("estado", PStr "Atendida");
                ("que_hizo", PStr "Cable cambiado") ]
              (fst (@update_solicitud stable_store sample answer_payload 1))
              (snd (@update_solicitud stable_store sample answer_payload 1)))
    as (s' & Hg & Hs & Hq & Hh).
  - reflexivity.
  - reflexivity.
  - discriminate.
  - reflexivity.
  - reflexivity.
  - apply surjective_pairing.
  - reflexivity.
  - exists s'. split; [exact Hg|]. split; [|split].
    + apply Hs. reflexivity.
    + apply Hq. reflexivity.
    + apply Hh. reflexivity.
Defined.

(** X9. A created request is listed back as it was sent: when a JSON
    object holding a str under each of the five required keys is answered
    201, the creator's next listing holds the dict with those five strs, the
    id the store gave, the creator's department, the time of the clock,
    [estado] "Recibida" and no answer yet. *)
Theorem created_values_are_listed `{Store}
    t req utcnow dep d c n tp de dd resp t' :
  resolve (session req) = Some dep ->
  get_json req = PDict d ->
  dict_lookup "cedula" d = Some (PStr c) ->
  dict_lookup "nombre" d = Some (PStr n) ->
  dict_lookup "tipo" d = Some (PStr tp) ->
  dict_lookup "descripcion" d = Some (PStr de) ->
  dict_lookup "departamento_destino" d = Some (PStr dd) ->
  create_solicitud t req utcnow = (resp, t') ->
  code resp = 201 ->
  exists listing,
    get_solicitudes t' req = ((Listing listing, 200), t') /\
    In [ ("id", PInt (next_id t)); ("cedula", PStr c); ("nombre", PStr n);
         ("dependencia", PStr dep); ("tipo", PStr tp);
         ("descripcion", PStr de); ("departamento_destino", PStr dd);
         ("fecha_creacion", PDate utcnow); ("estado", PStr "Recibida");
         ("quien_atendio", PNone); ("que_hizo", PNone) ] listing.
Proof.
  intros Hr Hj Hc Hn Ht Hde Hdd Hcr Hcode.
  destruct (create_accepted t req utcnow dep resp t' Hr Hcr Hcode)
    as (r & Hnew & ->).
  unfold new_solicitud, bind, getitem in Hnew.
  rewrite Hj, Hc, Hn, Ht, Hde, Hdd in Hnew. injection Hnew as <-.
  unfold get_solicitudes. rewrite Hr. eexists. split; [reflexivity|].
  apply (in_map to_dict
           (solicitudes_of dep
              (t ++ [mkSolicitud (next_id t) (PStr c) (PStr n) dep (PStr tp)
                       (PStr de) (PStr dd) utcnow (PStr "Recibida") PNone
                       PNone]))
           (mkSolicitud (next_id t) (PStr c) (PStr n) dep (PStr tp) (PStr de)
              (PStr dd) utcnow (PStr "Recibida") PNone PNone)).
  apply solicitudes_of_In. split.
  - apply in_or_app. right. left. reflexivity.
  - apply visible_iff. left. reflexivity.
Qed.

Lemma created_values_are_listed_witness :
  exists listing,
    @get_solicitudes stable_store
      (snd (@create_solicitud stable_store sample creation_payload 3000))
      creation_payload
    = ((Listing listing, 200),
       snd (@create_solicitud stable_store sample creation_payload 3000)) /\
    In [ ("id", PInt 4); ("cedula", PStr "V-4"); ("nombre", PStr "Juan");
         ("dependencia", PStr "DTISC"); ("tipo", PStr "Soporte");
         ("descripcion", PStr "Impresora");
         ("departamento_destino", PStr "DIAC");
         ("fecha_creacion", PDate 3000); ("estado", PStr "Recibida");
         ("quien_atendio", PNone); ("que_hizo", PNone) ] listing.
Proof.
  apply (@created_values_are_listed stable_store sample creation_payload 3000
           "DTISC"
           [ ("cedula", PStr "V-4"); ("nombre", PStr "Juan");
             ("tipo", PStr "Soporte"); ("descripcion", PStr "Impresora");
             ("departamento_destino", PStr "DIAC");
             ("status", PStr "Received"); ("dependencia", PStr "DGA") ]
           "V-4" "Juan" "Soporte" "Impresora" "DIAC"
           (fst (@create_solicitud stable_store sample creation_payload 3000)));
    reflexivity.
Defined.

(** ** The export as it arrives *)

Lemma texts_emit d st : texts (emit d st) = texts st ++ draw_text d.
Proof.
  unfold texts. rewrite events_emit, flat_map_app. simpl.
  rewrite app_nil_r. reflexivity.
Qed.

Lemma texts_down n st : texts (down n st) = texts st.
Proof. reflexivity. Qed.

Lemma texts_setFont name size st : texts (setFont name size st) = texts st.
Proof. unfold setFont. rewrite texts_emit. apply app_nil_r. Qed.

Lemma texts_drawString x text st :
  texts (drawString x text st) = texts st ++ [text].
Proof. unfold drawString. rewrite texts_emit. reflexivity. Qed.

Lemma texts_paragraph `{Typesetter} text pad st :
  texts (paragraph text pad st) = texts st ++ [[Fmt text]].
Proof. unfold paragraph. rewrite texts_down, texts_emit. reflexivity. Qed.

Lemma texts_line x1 y1 x2 y2 st :
  texts (emit (DrawLine x1 y1 x2 y2) st) = texts st.
Proof. rewrite texts_emit. apply app_nil_r. Qed.

(** The block of a record writes its header, its eight detail lines, the
    description and the resolution, and nothing else. *)
Lemma texts_draw_solicitud `{Typesetter} r st :
  texts (draw_solicitud r st) = texts st ++ block_texts r.
Proof.
  unfold draw_solicitud, block_texts. cbv zeta. cbn [fold_left details].
  destruct (truthy (que_hizo r));
    repeat first [ rewrite texts_down | rewrite texts_setFont
                 | rewrite texts_paragraph | rewrite texts_drawString
                 | rewrite texts_line ];
    rewrite <- !app_assoc; reflexivity.
Qed.

Lemma texts_new_page_if_low st :
  exists title, texts (new_page_if_low st) = texts st ++ title.
Proof.
  unfold texts. rewrite new_page_if_low_events, flat_map_app.
  eexists. reflexivity.
Qed.

Lemma texts_render_solicitud `{Typesetter} st r :
  exists title, texts (render_solicitud st r) = texts st ++ title ++ block_texts r.
Proof.
  unfold render_solicitud. destruct (texts_new_page_if_low st) as [title Ht].
  exists title. rewrite texts_draw_solicitud, Ht, app_assoc. reflexivity.
Qed.

(** Every line of every record is among the texts after the loop, and so
    is what was written before it. *)
Lemma texts_render_all `{Typesetter} l st text :
  In text (texts st) \/ (exists r, In r l /\ In text (block_texts r)) ->
  In text (texts (render_all st l)).
Proof.
  revert st. induction l as [|r l IH]; intros st Hin.
  - destruct Hin as [Hin | (r & [] & _)]. exact Hin.
  - change (render_all st (r :: l)) with (render_all (render_solicitud st r) l).
    apply IH. destruct (texts_render_solicitud st r) as [title Ht].
    destruct Hin as [Hin | (r' & [<- | Hr'] & Hin)].
    + left. rewrite Ht. apply in_or_app. left. exact Hin.
    + left. rewrite Ht. apply in_or_app. right. apply in_or_app. right.
      exact Hin.
    + right. exists r'. auto.
Qed.

Lemma flat_map_text_Draw p :
  flat_map event_text (map Draw p) = flat_map draw_text p.
Proof.
  induction p as [|d p IH]; simpl; [reflexivity|]. rewrite IH. reflexivity.
Qed.

Lemma doc_texts_save st : doc_texts (save (canvas st)) = texts st.
Proof.
  unfold doc_texts, texts, events, save.
  assert (Hs : forall ps,
             flat_map event_text
               (flat_map (fun p => map Draw p ++ [Break]) ps)
             = flat_map draw_text (List.concat ps)).
  { induction ps as [|p ps IH]; simpl; [reflexivity|].
    rewrite !flat_map_app, IH, flat_map_text_Draw. simpl.
    rewrite app_nil_r. reflexivity. }
  rewrite flat_map_app, Hs, flat_map_text_Draw.
  destruct (current (canvas st)) eqn:Hc.
  - simpl. symmetry. apply app_nil_r.
  - rewrite concat_app, flat_map_app. simpl. rewrite app_nil_r.
    reflexivity.
Qed.

(** The report over a selection names its records in order and writes
    every line of each. *)
Lemma report_is_complete `{Typesetter} now solicitudes :
  doc_headers (report now solicitudes) = map id solicitudes /\
  forall r text,
    In r solicitudes -> In text (block_texts r) ->
    In text (doc_texts (report now solicitudes)).
Proof.
  unfold report. destruct solicitudes as [|r0 l].
  - split; [reflexivity | intros r text []].
  - rewrite doc_headers_save, headers_render_all, doc_texts_save.
    split; [reflexivity|].
    intros r text Hr Ht. apply texts_render_all. right. exists r. auto.
Qed.

Lemma select_export_all `{Store} t d :
  truthy (payload_or d "export_all" (PBool false)) = true ->
  select t (PDict d) = Ok (Some t).
Proof.
  intros Ht. unfold select, get_default, bind. unfold payload_or in Ht.
  destruct (dict_lookup "export_all" d) as [v|];
    destruct (dict_lookup "ids" d); rewrite Ht; reflexivity.
Qed.

(** X14. [export_all] wins over [ids]: when the body is a JSON object
    whose [export_all] is true in Python's sense, the selection is every
    stored record in table order, whatever [ids] holds, and the store's [in_]
    is not consulted.  The answer is then the report over the whole table,
    naming every stored id in order, when reportlab parses every text the
    loop hands it, and the 500 of an uncaught [ValueError] when it does
    not. *)
Theorem export_all_wins_over_ids `{Store} `{Typesetter} `{Markup} t h now d :
  payload h = JsonBody (PDict d) ->
  truthy (payload_or d "export_all" (PBool false)) = true ->
  select t (PDict d) = Ok (Some t) /\
  route_export t h now =
    (if renderable t
     then (Attachment "reporte_solicitudes.pdf" "application/pdf"
             (report now t), 200)
     else (Unhandled ValueError, 500), t) /\
  doc_headers (report now t) = map id t.
Proof.
  intros Hp Ht. split; [apply select_export_all, Ht|]. split.
  - unfold route_export. rewrite Hp.
    cbv beta iota delta [get_json_or_abort].
    rewrite (select_export_all t d Ht).
    unfold export_pdf. cbn [get_json].
    rewrite (select_export_all t d Ht).
    destruct (renderable t); reflexivity.
  - apply report_is_complete.
Qed.

Lemma export_all_wins_over_ids_witness :
  @route_export stable_store line_count_typesetter plain_markup sample
    (mkHttp None (JsonBody (PDict [("ids", PStr "1,2"); ("export_all", PInt 1)])))
    5000
  = ((Attachment "reporte_solicitudes.pdf" "application/pdf"
        (@report line_count_typesetter 5000 sample), 200), sample) /\
  @route_export stable_store line_count_typesetter plain_markup [row1; row4]
    (mkHttp None (JsonBody (PDict [("ids", PStr "1,2"); ("export_all", PInt 1)])))
    5000
  = ((Unhandled ValueError, 500), [row1; row4]).
Proof.
  split.
  - apply (@export_all_wins_over_ids stable_store line_count_typesetter
             plain_markup sample
             (mkHttp None
                (JsonBody (PDict [("ids", PStr "1,2"); ("export_all", PInt 1)])))
             5000 [("ids", PStr "1,2"); ("export_all", PInt 1)]);
      reflexivity.
  - apply (@export_all_wins_over_ids stable_store line_count_typesetter
             plain_markup [row1; row4]
             (mkHttp None
                (JsonBody (PDict [("ids", PStr "1,2"); ("export_all", PInt 1)])))
             5000 [("ids", PStr "1,2"); ("export_all", PInt 1)]);
      reflexivity.
Defined.


